(** * Metalava developer scripts: a shallow embedding

    Two standalone Python scripts are modelled here:

    - [scripts/gather-android-metalava-artifacts.py] (module [Gather]):
      builds a list of targets and copies them into a fresh directory;
    - [scripts/refresh-baselines.py] (module [Refresh]): discovers the
      projects that own a baseline file and regenerates each of them.

    Both scripts are sequences of file-system operations and subprocess
    calls.  Module [Posix] gives the part of the operating system they
    touch: a file system, a working directory, the subprocess launcher and
    the Python exceptions those raise.  The scripts themselves are written
    in a state-and-exception monad over that world. *)

From stdpp Require Import gmap strings list fin_maps.
From Stdlib Require Import ZArith Ascii.

(** ** Strings, as the Python string operations the scripts use *)

Module Str.

(** The double-quote character, [chr(34)]. *)
Definition dquote : string := String (Ascii.ascii_of_nat 34) EmptyString.

(** The single-quote character, [chr(39)]. *)
Definition squote : string := String (Ascii.ascii_of_nat 39) EmptyString.

(** Python's [needle in hay] on [str]: [needle] occurs somewhere in [hay]. *)
Fixpoint contains (needle hay : string) : bool :=
  String.prefix needle hay ||
  match hay with
  | EmptyString => false
  | String _ hay' => contains needle hay'
  end.

(** [s.endswith(suf)]. *)
Fixpoint endswith (suf s : string) : bool :=
  String.eqb suf s ||
  match s with
  | EmptyString => false
  | String _ s' => endswith suf s'
  end.

(** [s[n:]]. *)
Fixpoint drop_chars (n : nat) (s : string) : string :=
  match n, s with
  | O, _ => s
  | S n', String _ s' => drop_chars n' s'
  | S _, EmptyString => EmptyString
  end.

(** [s.split("/")]: the pieces between slashes, empty pieces included. *)
Fixpoint split_slash (s : string) : list string :=
  match s with
  | EmptyString => [EmptyString]
  | String c s' =>
      if Ascii.eqb c "/"%char then EmptyString :: split_slash s'
      else match split_slash s' with
           | h :: t => String c h :: t
           | [] => [String c EmptyString]
           end
  end.

(** [sep.join(l)]. *)
Definition join (sep : string) (l : list string) : string :=
  String.concat sep l.

End Str.

(** ** The operating system the scripts run on *)

Module Posix.

(** A file is the sequence of lines that iterating over the opened file
    yields; a directory has no content of its own: its entries are the
    paths one component longer. *)
Inductive node :=
| File (lines : list string)
| Dir.

#[export] Instance node_eq_dec : EqDecision node.
Proof. solve_decision. Defined.

(** The place of a node is its absolute path, held as the names on the
    way from the root; the root itself is [[]].  There are no symbolic or
    hard links.  A path string is turned into a place by the walk of
    [resolve] below, which reads [.] and [..] as the kernel does. *)
Abbreviation path := (list string) (only parsing).
Abbreviation fsys := (gmap (list string) node) (only parsing).

(** What a path names.  The root always exists and is a directory. *)
Definition node_at (fs : fsys) (p : path) : option node :=
  match p with
  | [] => Some Dir
  | _ => fs !! p
  end.

Definition exists_at (fs : fsys) (p : path) : bool :=
  match node_at fs p with Some _ => true | None => false end.

Definition is_dir (fs : fsys) (p : path) : bool :=
  match node_at fs p with Some Dir => true | _ => false end.

(** [PurePath.parent]: the path without its last component; the root is
    its own parent. *)
Definition parent (p : path) : path := removelast p.

(** [PurePath.name]: the last component, [""] for the root. *)
Definition name (p : path) : string := List.last p EmptyString.

(** The components [pathlib] keeps of a path string: empty components
    (doubled or trailing slashes) and [.] are dropped, [..] is kept. *)
Definition proper (c : string) : bool :=
  negb (String.eqb c EmptyString) && negb (String.eqb c ".").

Definition parts (s : string) : path :=
  List.filter proper (Str.split_slash s).

Definition is_abs (s : string) : bool := String.prefix "/" s.

(** [os.path.basename]: the text after the last slash. *)
Definition basename (s : string) : string :=
  List.last (Str.split_slash s) EmptyString.

(** [str(p)] for an absolute path. *)
Definition path_str (p : path) : string := "/" +:+ Str.join "/" p.

(** Every existing node sits in a directory. *)
Definition fs_wf (fs : fsys) : Prop :=
  map_Forall (fun p _ => node_at fs (parent p) = Some Dir) fs.

(** *** Globbing *)

(** [fnmatch(n, "TEST-*.xml")]. *)
Definition is_test_report (n : string) : bool :=
  String.prefix "TEST-" n && Str.endswith ".xml" (Str.drop_chars 5 n).

(** [rel], read below directory [cur], is reached through directories only
    and its last component satisfies [last_ok]: the walk of the pattern
    [**/<last>]. *)
Fixpoint walk_rec (fs : fsys) (last_ok : string -> bool)
    (cur : path) (rel : path) : bool :=
  match rel with
  | [] => false
  | [n] => last_ok n
  | d :: rest =>
      is_dir fs (cur ++ [d]) && walk_rec fs last_ok (cur ++ [d]) rest
  end.

(** [l] minus its prefix [pre], when [pre] is one. *)
Fixpoint strip_prefix (pre l : path) : option path :=
  match pre, l with
  | [], _ => Some l
  | a :: pre', b :: l' =>
      if String.eqb a b then strip_prefix pre' l' else None
  | _ :: _, [] => None
  end.

Definition below (fs : fsys) (last_ok : string -> bool)
    (dir p : path) : bool :=
  match strip_prefix dir p with
  | Some rel => walk_rec fs last_ok dir rel
  | None => false
  end.

(** [dir.glob("**/TEST-*.xml")]: every existing path below [dir] whose
    name matches, in the order the directory scan yields them (here: the
    order of the map). *)
Definition glob_test_reports (fs : fsys) (dir : path) : list path :=
  if is_dir fs dir
  then List.filter (below fs is_test_report dir) (map fst (map_to_list fs))
  else [].

(** [dir.glob("*/build.gradle.kts")]: for every directory directly in
    [dir], its [build.gradle.kts] when that exists. *)
Definition is_build_file (dir p : path) : bool :=
  match strip_prefix dir p with
  | Some [_; f] => String.eqb f "build.gradle.kts"
  | _ => false
  end.

Definition glob_build_files (fs : fsys) (dir : path) : list path :=
  if is_dir fs dir
  then List.filter (fun p => is_build_file dir p && is_dir fs (parent p))
         (map fst (map_to_list fs))
  else [].

(** *** Exceptions *)

Inductive exn :=
| NoBuildTop                        (* Exception("ANDROID_BUILD_TOP not specified") *)
| OutputDirExists (directory : string)
                                    (* Exception(f"{output_dir} exists, please delete or change") *)
| FileNotFoundError
| FileExistsError
| IsADirectoryError
| NotADirectoryError
| SameFileError                     (* shutil.SameFileError *)
| CalledProcessError (code : Z)     (* subprocess.CalledProcessError *)
| OSError.                          (* the child process could not be started *)

(** The exit status of the script: an uncaught exception ends the
    interpreter with status 1. *)
Definition exit_code {A} (r : exn + A) : Z :=
  match r with inl _ => 1%Z | inr _ => 0%Z end.

(** *** Path resolution *)

(** A component that names an entry: not empty, not [.] and not [..]. *)
Definition is_name (c : string) : bool :=
  proper c && negb (String.eqb c "..").

(** The kernel's walk along the components of a path string, from the
    directory [cur].  Every component is looked up in a directory: an
    empty component or [.] stays there, [..] goes to its parent (the root
    is its own parent), a name goes to the entry of that name.  The place
    the walk ends at need not exist; a place on the way that is missing or
    is a file ends it with an error. *)
Fixpoint walk (fs : fsys) (cur : path) (comps : list string) : exn + path :=
  match comps with
  | [] => inr cur
  | c :: rest =>
      match node_at fs cur with
      | Some Dir =>
          if is_name c then walk fs (cur ++ [c]) rest
          else if String.eqb c ".." then
            if is_dir fs (parent cur) then walk fs (parent cur) rest
            else inl FileNotFoundError
          else walk fs cur rest
      | Some (File _) => inl NotADirectoryError
      | None => inl FileNotFoundError
      end
  end.

(** Where the walk of [s] starts. *)
Definition start (cwd : path) (s : string) : path :=
  if is_abs s then [] else cwd.

(** The place a path string names for the kernel ([open], [stat],
    [chdir]); the empty string names nothing. *)
Definition resolve (fs : fsys) (cwd : path) (s : string) : exn + path :=
  if String.eqb s "" then inl FileNotFoundError
  else walk fs (start cwd s) (Str.split_slash s).

(** The components of [str(Path(s))]: those [pathlib] keeps, and [.] when
    it keeps none. *)
Definition path_comps (s : string) : list string :=
  match parts s with
  | [] => ["."]
  | l => l
  end.

(** The place the path object [Path(s)] names. *)
Definition resolve_path (fs : fsys) (cwd : path) (s : string) : exn + path :=
  walk fs (start cwd s) (path_comps s).

(** Whether [Path(s)] names something that exists; a walk that fails says
    no. *)
Definition present (fs : fsys) (cwd : path) (s : string) : bool :=
  match resolve_path fs cwd s with
  | inr p => exists_at fs p
  | inl _ => false
  end.

(** *** The world and its monad *)

(** What a child process did: it ran, left the file system as [fs'] and
    exited with [code]; or it could not be started at all. *)
Inductive proc_result :=
| Exited (code : Z) (fs' : fsys)
| LaunchFailed.

(** A call of [subprocess.run], with the file system the child found. *)
(** The file system a child leaves behind, its exit status forgotten. *)
Definition proc_fs (r : proc_result) : option fsys :=
  match r with
  | Exited _ fs' => Some fs'
  | LaunchFailed => None
  end.

Record event := Run {
  ev_argv : list string;
  ev_cwd : path;
  ev_fs : fsys;
}.

Record world := World {
  w_cwd : path;
  w_fs : fsys;
  w_trace : list event;
}.

Definition M (A : Type) : Type := world -> (exn + A) * world.

Definition ret {A} (a : A) : M A := fun w => (inr a, w).

Definition raise {A} (e : exn) : M A := fun w => (inl e, w).

Definition bind {A B} (m : M A) (k : A -> M B) : M B :=
  fun w =>
    match m w with
    | (inl e, w') => (inl e, w')
    | (inr a, w') => k a w'
    end.

Notation "'let*' x ':=' m 'in' k" := (bind m (fun x => k))
  (at level 10, x name, m at level 200, k at level 200).
Notation "m ;; k" := (bind m (fun _ => k))
  (at level 100, right associativity).

(** [for x in l: body(x)]. *)
Fixpoint for_each {A} (l : list A) (body : A -> M unit) : M unit :=
  match l with
  | [] => ret tt
  | x :: l' => body x ;; for_each l' body
  end.

Definition get_fs : M fsys := fun w => (inr (w_fs w), w).
Definition get_cwd : M path := fun w => (inr (w_cwd w), w).
Definition put_fs (fs : fsys) : M unit :=
  fun w => (inr tt, World (w_cwd w) fs (w_trace w)).
Definition put_cwd (cwd : path) : M unit :=
  fun w => (inr tt, World cwd (w_fs w) (w_trace w)).
Definition log (e : event) : M unit :=
  fun w => (inr tt, World (w_cwd w) (w_fs w) (w_trace w ++ [e])).

(** [os.chdir(s)]. *)
Definition chdir (s : string) : M unit :=
  let* cwd := get_cwd in
  let* fs := get_fs in
  match resolve fs cwd s with
  | inl e => raise e
  | inr p =>
      match node_at fs p with
      | Some Dir => put_cwd p
      | Some (File _) => raise NotADirectoryError
      | None => raise FileNotFoundError
      end
  end.

(** [Path(s).exists()]. *)
Definition path_exists (s : string) : M bool :=
  let* cwd := get_cwd in
  let* fs := get_fs in
  ret (present fs cwd s).

(** [os.mkdir(Path(s))]. *)
Definition mkdir (s : string) : M unit :=
  let* cwd := get_cwd in
  let* fs := get_fs in
  match resolve_path fs cwd s with
  | inl e => raise e
  | inr p =>
      if exists_at fs p then raise FileExistsError
      else match node_at fs (parent p) with
           | Some Dir => put_fs (<[p := Dir]> fs)
           | Some (File _) => raise NotADirectoryError
           | None => raise FileNotFoundError
           end
  end.

(** [shutil.copy(src, Path(dst))]: into [dst] under the name of [src] when
    [dst] is a directory ([os.path.join(dst, os.path.basename(src))]), onto
    [dst] otherwise.  The copy is refused when source and destination are
    the same file; then the source is opened, then the destination. *)
Definition shutil_copy (src dst : string) : M unit :=
  let* cwd := get_cwd in
  let* fs := get_fs in
  let d := resolve_path fs cwd dst in
  let d' :=
    match d with
    | inr p =>
        if is_dir fs p
        then walk fs (start cwd dst) (path_comps dst ++ [basename src])
        else d
    | inl _ => d
    end in
  let s := resolve fs cwd src in
  let same :=
    match s, d' with
    | inr ps, inr pd => exists_at fs ps && bool_decide (ps = pd)
    | _, _ => false
    end in
  if same then raise SameFileError
  else match s with
       | inl e => raise e
       | inr ps =>
           match node_at fs ps with
           | None => raise FileNotFoundError
           | Some Dir => raise IsADirectoryError
           | Some (File c) =>
               match d' with
               | inl e => raise e
               | inr pd =>
                   match node_at fs pd with
                   | Some Dir => raise IsADirectoryError
                   | _ =>
                       match node_at fs (parent pd) with
                       | Some Dir => put_fs (<[pd := File c]> fs)
                       | Some (File _) => raise NotADirectoryError
                       | None => raise FileNotFoundError
                       end
                   end
               end
           end
       end.

(** [open(p, 'r')], read to the end. *)
Definition read_lines (p : path) : M (list string) :=
  let* fs := get_fs in
  match node_at fs p with
  | Some (File c) => ret c
  | Some Dir => raise IsADirectoryError
  | None => raise FileNotFoundError
  end.

(** [p.unlink(missing_ok=...)], for a place [p]; a place with no node is
    taken as missing, whatever is above it. *)
Definition unlink (missing_ok : bool) (p : path) : M unit :=
  let* fs := get_fs in
  match node_at fs p with
  | Some (File _) => put_fs (delete p fs)
  | Some Dir => raise IsADirectoryError
  | None => if missing_ok then ret tt else raise FileNotFoundError
  end.

Section Subprocess.

(** The programs the scripts start are outside the repository: what a
    command does, given its arguments, its working directory and the
    file system, is a parameter. *)
Variable spawn : list string -> path -> fsys -> proc_result.

(** [subprocess.run(argv, cwd=cwd, check=check)].  The call blocks until
    the child has exited; with [check], a non-zero status raises. *)
Definition subprocess_run (argv : list string) (cwd : option path)
    (check : bool) : M Z :=
  let* here := get_cwd in
  let* fs := get_fs in
  let dir := default here cwd in
  log (Run argv dir fs) ;;
  match spawn argv dir fs with
  | LaunchFailed => raise OSError
  | Exited code fs' =>
      put_fs fs' ;;
      if check && negb (Z.eqb code 0) then raise (CalledProcessError code)
      else ret code
  end.

End Subprocess.

End Posix.

(** ** scripts/gather-android-metalava-artifacts.py *)

Module Gather.
Import Posix.

(** The [argparse.Namespace] that [parse_args] returns: the positional
    [directory], and the values of the repeatable [--stub-src-jar] option
    ([action="append"]: [None] when the option was never given). *)
Record Namespace := {
  directory : string;
  stub_src_jar : option (list string);
}.

(** Python's truth value of a list, and of an optional list. *)
Definition truthy (l : list string) : bool :=
  match l with [] => false | _ :: _ => true end.

Definition opt_truthy (o : option (list string)) : bool :=
  match o with Some l => truthy l | None => false end.

Definition default_stub_files : list string :=
  map (fun x => "out/target/common/docs/" +:+ x +:+ "-stubs.srcjar")
      [ "api-stubs-docs-non-updatable";
        "system-api-stubs-docs-non-updatable";
        "test-api-stubs-docs-non-updatable";
        "module-lib-api-stubs-docs-non-updatable" ].

Definition jdiff_files : list string :=
  [ "out/target/common/obj/api.xml";
    "out/target/common/obj/system-api.xml";
    "out/target/common/obj/module-lib-api.xml";
    "out/target/common/obj/system-server-api.xml";
    "out/target/common/obj/test-api.xml" ].

Definition api_version_files : list string :=
  [ "out/soong/lint/api_versions_public.xml";
    "out/soong/lint/api_versions_system.xml";
    "out/soong/lint/api_versions_module_lib.xml";
    "out/soong/lint/api_versions_system_server.xml" ].

(** Lines 61 to 102 of the script: the list [targets] at the build. *)
Definition resolve_targets (args : Namespace) : list string :=
  let targets := [] in
  let targets :=
    if opt_truthy (stub_src_jar args)
    then targets ++ default [] (stub_src_jar args)
    else targets in
  if negb (truthy targets) then
    let stub_files :=
      if opt_truthy (stub_src_jar args)
      then default [] (stub_src_jar args)
      else default_stub_files in
    let targets := targets ++ stub_files in
    let targets := targets ++ jdiff_files in
    let targets := targets ++ api_version_files in
    targets
  else targets.

(** Target [t], read in directory [cwd], names a file that the build
    left in [built], and the file system [final] has a copy of it under
    the target's file name in the directory [out]. *)
Definition has_copy (built final : fsys) (cwd out : path) (t : string)
    : Prop :=
  exists s c, resolve final cwd t = inr s
              /\ built !! s = Some (File c)
              /\ final !! (out ++ [basename t]) = Some (File c).

Definition soong_ui : list string :=
  [ "build/soong/soong_ui.bash"; "--make-mode" ].

Section Main.

Variable spawn : list string -> path -> fsys -> proc_result.

(** [main(args)], after [argparse] has accepted the command line.
    [print] only writes to the terminal and is left out. *)
Definition main (environ : gmap string string) (args : Namespace) : M unit :=
  match environ !! "ANDROID_BUILD_TOP" with
  | None => raise NoBuildTop
  | Some top =>
      if String.eqb top "" then raise NoBuildTop
      else
        chdir top ;;
        let output_dir := directory args in
        let* present := path_exists output_dir in
        if present then raise (OutputDirExists output_dir)
        else
          let targets := resolve_targets args in
          subprocess_run spawn (soong_ui ++ targets) None true ;;
          mkdir output_dir ;;
          for_each targets (fun t => shutil_copy t output_dir)
  end.

End Main.

End Gather.

(** ** scripts/refresh-baselines.py *)

Module Refresh.
Import Posix.

(** A project that has a baseline file to update. *)
Record BaselineProject := {
  name : string;
  baseline_file : path;
}.

#[export] Instance BaselineProject_eq_dec : EqDecision BaselineProject.
Proof. solve_decision. Defined.

Definition resource_path (project_dir : path) (resource : string) : path :=
  project_dir ++ ["src"; "test"; "resources"; resource].

(** The text [id(dq metalava-model-provider-plugin dq)], [dq] the
    double-quote character. *)
Definition marker : string :=
  "id(" +:+ Str.dquote +:+ "metalava-model-provider-plugin" +:+ Str.dquote
  +:+ ")".

(** The inner loop of [find_baseline_projects]: one [append] for every
    line of the build file that has the marker. *)
Fixpoint scan_lines (buildFile : path) (lines : list string)
    (projects : list BaselineProject) : list BaselineProject :=
  match lines with
  | [] => projects
  | line :: rest =>
      if Str.contains marker line then
        let project_dir := parent buildFile in
        let baseline :=
          {| name := Posix.name project_dir;
             baseline_file :=
               resource_path project_dir "model-test-suite-baseline.txt" |} in
        scan_lines buildFile rest (projects ++ [baseline])
      else scan_lines buildFile rest projects
  end.

(** The outer loop, over the build files the glob yields. *)
Fixpoint scan_build_files (buildFiles : list path)
    (projects : list BaselineProject) : M (list BaselineProject) :=
  match buildFiles with
  | [] => ret projects
  | buildFile :: rest =>
      let* lines := read_lines buildFile in
      scan_build_files rest (scan_lines buildFile lines projects)
  end.

Definition metalava_project (metalava_dir : path) : BaselineProject :=
  {| name := "metalava";
     baseline_file :=
       resource_path (metalava_dir ++ ["metalava"])
         "source-model-provider-baseline.txt" |}.

Definition find_baseline_projects (metalava_dir : path)
    : M (list BaselineProject) :=
  let* fs := get_fs in
  let* projects := scan_build_files (glob_build_files fs metalava_dir) [] in
  ret (projects ++ [metalava_project metalava_dir]).

(** [n in names]. *)
Definition name_in (n : string) (names : list string) : bool :=
  existsb (String.eqb n) names.

(** Lines 70 and 71: the projects kept by the names on the command line. *)
Definition select (projects : list string)
    (baseline_projects : list BaselineProject) : list BaselineProject :=
  match projects with
  | [] => baseline_projects
  | _ :: _ =>
      List.filter (fun p => name_in (name p) projects) baseline_projects
  end.

(** The directories [main] derives from the place of the script
    (lines 60 to 64). *)
Definition metalava_dir (this : path) : path :=
  let script_dir := parent this in
  parent script_dir.

Definition metalava_out_dir (this : path) : path :=
  let out_dir := parent (parent (metalava_dir this)) ++ ["out"] in
  out_dir ++ ["metalava"].

Definition test_reports_dir (metalava_out_dir : path) (project_name : string)
    : path :=
  metalava_out_dir ++ [project_name; "build"; "test-results"; "test"].

Definition test_argv (project_name : string) : list string :=
  [ "./gradlew"; ":" +:+ project_name +:+ ":test"; "--continue" ].

Definition quoted (s : string) : string := Str.squote +:+ s +:+ Str.squote.

Definition baseline_argv (reports : list path) (baseline_file : path)
    : list string :=
  let test_report_files :=
    Str.join " " (map (fun f => quoted (path_str f)) reports) in
  [ "./gradlew"; ":metalava-model-testsuite-cli:run";
    "--args=" +:+ test_report_files +:+ " --baseline-file "
    +:+ quoted (path_str baseline_file) ].

(** The subprocess calls that run a project's tests: those of the form
    of [test_argv]. *)
Definition is_test_run (argv : list string) : bool :=
  match argv with
  | [_; _; flag] => String.eqb flag "--continue"
  | _ => false
  end.

Section Main.

Variable spawn : list string -> path -> fsys -> proc_result.

(** The body of the loop over the projects (lines 74 to 95). *)
Definition refresh (metalava_dir metalava_out_dir : path)
    (baseline_project : BaselineProject) : M unit :=
  let project_name := name baseline_project in
  let reports_dir := test_reports_dir metalava_out_dir project_name in
  let* fs := get_fs in
  for_each (glob_test_reports fs reports_dir) (unlink false) ;;
  let baseline := baseline_file baseline_project in
  unlink true baseline ;;
  subprocess_run spawn (test_argv project_name) (Some metalava_dir) false ;;
  let* fs := get_fs in
  subprocess_run spawn
    (baseline_argv (glob_test_reports fs reports_dir) baseline)
    (Some metalava_dir) false ;;
  ret tt.

(** [main(args)]; [this] is [Path(__file__)], [projects] the positional
    arguments.  [print] is left out. *)
Definition main (this : path) (projects : list string) : M unit :=
  let* baseline_projects := find_baseline_projects (metalava_dir this) in
  let baseline_projects := select projects baseline_projects in
  for_each baseline_projects
    (refresh (metalava_dir this) (metalava_out_dir this)).

End Main.

End Refresh.


(** ** Notions the properties are stated with *)

Module Notions.
Import Posix.

(** A subprocess call that, if it is the test run of a project, finds no
    test report below that project's results directory when it starts. *)
Definition clean_test_run (metalava_out_dir : list string) (ev : event)
    : Prop :=
  forall n, ev_argv ev = Refresh.test_argv n ->
    glob_test_reports (ev_fs ev)
      (Refresh.test_reports_dir metalava_out_dir n) = [].

(** The candidate that a build file stands for, and the lines that make
    it one. *)
Definition candidate (buildFile : list string) : Refresh.BaselineProject :=
  {| Refresh.name := name (parent buildFile);
     Refresh.baseline_file :=
       Refresh.resource_path (parent buildFile)
         "model-test-suite-baseline.txt" |}.

Definition has_marker (line : string) : bool :=
  Str.contains Refresh.marker line.

(** The lines of the file at [p]; none when [p] is no file. *)
Definition lines_of (fs : gmap (list string) node) (p : list string)
    : list string :=
  match node_at fs p with
  | Some (File c) => c
  | _ => []
  end.

(** The candidates one build file gives: one for every line with the
    marker. *)
Definition candidates_of (fs : gmap (list string) node) (f : list string)
    : list Refresh.BaselineProject :=
  map (fun _ => candidate f) (List.filter has_marker (lines_of fs f)).

(** Computation [m] leaves the path [p] as it is, however it ends. *)
Definition keeps {A : Type} (p : list string) (m : M A) : Prop :=
  forall w, w_fs (snd (m w)) !! p = w_fs w !! p.

End Notions.

(** ** Sample worlds *)

Module Examples.
Import Posix.

(** A child that changes nothing and exits with status [code]. *)
Definition idle (code : Z)
    : list string -> list string -> gmap (list string) node -> proc_result :=
  fun _ _ fs => Exited code fs.

Definition environ : gmap string string :=
  {[ "ANDROID_BUILD_TOP" := "/top" ]}.

(** A build root with two built files of the same name and one other. *)
Definition top_tree : gmap (list string) node :=
  list_to_map
    [ (["top"], Dir);
      (["top"; "a"], Dir);
      (["top"; "b"], Dir);
      (["top"; "a"; "x.jar"], File ["from a"]);
      (["top"; "b"; "x.jar"], File ["from b"]);
      (["top"; "b"; "y.jar"], File ["other"]);
      (["home"], Dir) ].

(** The same with a directory [out] in the build root. *)
Definition top_tree_out : gmap (list string) node :=
  <[ ["top"; "out"] := Dir ]> top_tree.

(** The user starts the script in [/home]. *)
Definition at_home (fs : gmap (list string) node) : world :=
  World ["home"] fs [].

Definition same_names : Gather.Namespace :=
  {| Gather.directory := "out";
     Gather.stub_src_jar := Some ["a/x.jar"; "b/x.jar"] |}.

Definition other_names : Gather.Namespace :=
  {| Gather.directory := "out";
     Gather.stub_src_jar := Some ["a/x.jar"; "b/y.jar"] |}.

(** A destination beside the build root, and a target named by a detour. *)
Definition beside_root : Gather.Namespace :=
  {| Gather.directory := "../gathered";
     Gather.stub_src_jar := Some ["a/x.jar"; "a/../b/y.jar"] |}.

(** A destination that names the existing directory [/home] from the
    build root. *)
Definition onto_home : Gather.Namespace :=
  {| Gather.directory := "../home";
     Gather.stub_src_jar := Some ["a/x.jar"] |}.

(** A checkout with the script at
    [/src/tools/metalava/scripts/refresh-baselines.py], two projects that
    apply the plugin and one that does not, and test reports left by an
    earlier run in [/src/out/metalava]. *)
Definition this : list string :=
  ["src"; "tools"; "metalava"; "scripts"; "refresh-baselines.py"].

Definition plugin_line : string := "    " +:+ Refresh.marker.

Definition checkout_with (turbine_build : list string)
    : gmap (list string) node :=
  list_to_map
    [ (["src"], Dir);
      (["src"; "tools"], Dir);
      (["src"; "tools"; "metalava"], Dir);
      (["src"; "tools"; "metalava"; "scripts"], Dir);
      (["src"; "tools"; "metalava"; "psi"], Dir);
      (["src"; "tools"; "metalava"; "psi"; "build.gradle.kts"],
       File ["plugins {"; plugin_line; "}"]);
      (["src"; "tools"; "metalava"; "turbine"], Dir);
      (["src"; "tools"; "metalava"; "turbine"; "build.gradle.kts"],
       File turbine_build);
      (["src"; "tools"; "metalava"; "cli"], Dir);
      (["src"; "tools"; "metalava"; "cli"; "build.gradle.kts"],
       File ["plugins {"; "}"]);
      (["src"; "out"], Dir);
      (["src"; "out"; "metalava"], Dir);
      (["src"; "out"; "metalava"; "psi"], Dir);
      (["src"; "out"; "metalava"; "psi"; "build"], Dir);
      (["src"; "out"; "metalava"; "psi"; "build"; "test-results"], Dir);
      (["src"; "out"; "metalava"; "psi"; "build"; "test-results"; "test"],
       Dir);
      (["src"; "out"; "metalava"; "psi"; "build"; "test-results"; "test";
        "TEST-a.xml"], File ["old"]) ].

Definition checkout : gmap (list string) node :=
  checkout_with ["plugins {"; plugin_line; "}"].

(** The checkout with a file of notes that quotes the plugin line
    twice; it is no build file. *)
Definition checkout_notes : gmap (list string) node :=
  <[ ["src"; "tools"; "metalava"; "psi"; "NOTES.md"]
     := File [plugin_line; plugin_line] ]> checkout.

(** The same, the build file of [turbine] naming the plugin on two
    lines: once in a comment, once to apply it. *)
Definition checkout_two_lines : gmap (list string) node :=
  checkout_with
    ["// applies " +:+ Refresh.marker; "plugins {"; plugin_line; "}"].

End Examples.

(** * Properties *)

(** ** Path strings *)

Module PathFacts.
Import Posix.

Lemma split_slash_nonempty (s : string) : Str.split_slash s <> [].
Proof.
  destruct s as [|c s]; simpl; [discriminate|].
  destruct (Ascii.eqb c "/"); [discriminate|].
  destruct (Str.split_slash s); discriminate.
Qed.

(** No piece of a split contains a slash: splitting it again gives the
    piece itself. *)
Lemma split_slash_pieces (s : string) :
  Forall (fun x => Str.split_slash x = [x]) (Str.split_slash s).
Proof.
  induction s as [|c s IH]; simpl.
  - by constructor.
  - destruct (Ascii.eqb c "/") eqn:Hc.
    + constructor; [done | exact IH].
    + destruct (Str.split_slash s) as [|h t] eqn:Hs.
      * constructor; [|constructor]. simpl. by rewrite Hc.
      * inversion IH as [|? ? Hh Ht]; subst.
        constructor; [|exact Ht]. simpl. by rewrite Hc, Hh.
Qed.

Lemma split_slash_basename (s : string) :
  Str.split_slash (basename s) = [basename s].
Proof.
  unfold basename.
  pose proof (split_slash_pieces s) as HF.
  destruct (exists_last (split_slash_nonempty s)) as (front & x & Heq).
  rewrite Heq in *. rewrite last_last.
  apply Forall_app in HF as [_ HF]. by inversion HF.
Qed.

(** The pieces of a path string end in its base name. *)
Lemma split_slash_last (s : string) :
  exists front, Str.split_slash s = front ++ [basename s].
Proof.
  unfold basename.
  destruct (exists_last (split_slash_nonempty s)) as (front & x & Heq).
  exists front. by rewrite Heq, last_last.
Qed.

Lemma is_dir_node_at (fs : gmap (list string) node) (p : list string) :
  is_dir fs p = true <-> node_at fs p = Some Dir.
Proof. unfold is_dir. by destruct (node_at fs p) as [[|]|]. Qed.

(** *** The walk *)

Lemma walk_app (fs : gmap (list string) node) (cur c1 c2 : list string) :
  walk fs cur (c1 ++ c2)
  = match walk fs cur c1 with
    | inr q => walk fs q c2
    | inl e => inl e
    end.
Proof.
  revert cur. induction c1 as [|c c1 IH]; intros cur; simpl; [done|].
  destruct (node_at fs cur) as [[|]|]; try done.
  destruct (is_name c); [apply IH|].
  destruct (String.eqb c ".."); [|apply IH].
  destruct (is_dir fs (parent cur)); [apply IH|done].
Qed.

(** A walk that arrives still arrives, at the same place, when
    directories are added. *)
Lemma walk_mono (fs fs' : gmap (list string) node)
    (cur comps p : list string) :
  (forall q, is_dir fs q = true -> is_dir fs' q = true) ->
  walk fs cur comps = inr p -> walk fs' cur comps = inr p.
Proof.
  intros Hd. revert cur. induction comps as [|c rest IH]; intros cur; simpl;
    [done|].
  destruct (node_at fs cur) as [[|]|] eqn:Hn; try done.
  apply is_dir_node_at, Hd, is_dir_node_at in Hn. rewrite Hn.
  destruct (is_name c); [apply IH|].
  destruct (String.eqb c ".."); [|apply IH].
  destruct (is_dir fs (parent cur)) eqn:Hp; [|done].
  rewrite (Hd _ Hp). apply IH.
Qed.

(** Where a walk arrives does not depend on the file system, only
    whether it does. *)
Lemma walk_det (fs fs' : gmap (list string) node)
    (cur comps p p' : list string) :
  walk fs cur comps = inr p -> walk fs' cur comps = inr p' -> p = p'.
Proof.
  revert cur. induction comps as [|c rest IH]; intros cur; simpl.
  - by intros [= <-] [= <-].
  - destruct (node_at fs cur) as [[|]|]; try done.
    destruct (node_at fs' cur) as [[|]|]; try done.
    destruct (is_name c); [apply IH|].
    destruct (String.eqb c ".."); [|apply IH].
    destruct (is_dir fs (parent cur)); [|done].
    destruct (is_dir fs' (parent cur)); [apply IH|done].
Qed.

(** One step from a directory. *)
Lemma walk_one (fs : gmap (list string) node) (cur : list string)
    (n : string) :
  is_dir fs cur = true ->
  walk fs cur [n]
  = if is_name n then inr (cur ++ [n])
    else if String.eqb n ".." then
      if is_dir fs (parent cur) then inr (parent cur)
      else inl FileNotFoundError
    else inr cur.
Proof.
  intros Hd. apply is_dir_node_at in Hd. simpl. rewrite Hd.
  destruct (is_name n); [done|].
  destruct (String.eqb n ".."); [|done]. by destruct (is_dir fs _).
Qed.

(** A walk whose last component is a name arrives at an entry of that
    name, in a directory. *)
Lemma walk_last_name (fs : gmap (list string) node)
    (cur comps p : list string) (n : string) :
  is_name n = true ->
  walk fs cur (comps ++ [n]) = inr p ->
  exists q, walk fs cur comps = inr q /\ is_dir fs q = true /\ p = q ++ [n].
Proof.
  intros Hn. rewrite walk_app.
  destruct (walk fs cur comps) as [e|q]; [done|]. simpl.
  destruct (node_at fs q) as [[|]|] eqn:Hq; try done.
  rewrite Hn. intros [= <-]. exists q. by rewrite is_dir_node_at.
Qed.

(** A walk whose last component is no name arrives at a directory. *)
Lemma walk_last_other (fs : gmap (list string) node)
    (cur comps p : list string) (n : string) :
  is_name n = false ->
  walk fs cur (comps ++ [n]) = inr p ->
  is_dir fs p = true.
Proof.
  intros Hn. rewrite walk_app.
  destruct (walk fs cur comps) as [e|q]; [done|]. simpl.
  destruct (node_at fs q) as [[|]|] eqn:Hq; try done.
  rewrite Hn. destruct (String.eqb n "..").
  - destruct (is_dir fs (parent q)) eqn:Hp; [|done]. by intros [= <-].
  - intros [= <-]. by apply is_dir_node_at.
Qed.

(** What a path string names ends in its base name, or is a directory. *)
Lemma resolve_basename (fs : gmap (list string) node) (cwd s : list string)
    (t : string) :
  resolve fs cwd t = inr s ->
  if is_name (basename t) then exists q, s = q ++ [basename t]
  else is_dir fs s = true.
Proof.
  unfold resolve. destruct (String.eqb t ""); [done|].
  destruct (split_slash_last t) as [front ->].
  destruct (is_name (basename t)) eqn:Hn.
  - intros (q & _ & _ & ->)%walk_last_name; [by exists q|done].
  - by apply walk_last_other.
Qed.

Lemma resolve_mono (fs fs' : gmap (list string) node) (cwd p : list string)
    (t : string) :
  (forall q, is_dir fs q = true -> is_dir fs' q = true) ->
  resolve fs cwd t = inr p -> resolve fs' cwd t = inr p.
Proof.
  intros Hd. unfold resolve. destruct (String.eqb t ""); [done|].
  by apply walk_mono.
Qed.

Lemma resolve_path_mono (fs fs' : gmap (list string) node)
    (cwd p : list string) (t : string) :
  (forall q, is_dir fs q = true -> is_dir fs' q = true) ->
  resolve_path fs cwd t = inr p -> resolve_path fs' cwd t = inr p.
Proof. intros Hd. by apply walk_mono. Qed.

End PathFacts.

(** ** The artifact gatherer *)

Module GatherSpec.
Import Posix Gather PathFacts.

(** *** The target list *)

Lemma resolve_targets_overrides (args : Namespace) (l : list string) :
  stub_src_jar args = Some l -> l <> [] -> resolve_targets args = l.
Proof.
  intros H Hl. unfold resolve_targets. rewrite H.
  destruct l; [done|]. reflexivity.
Qed.

Lemma resolve_targets_default (args : Namespace) :
  opt_truthy (stub_src_jar args) = false ->
  resolve_targets args
  = default_stub_files ++ jdiff_files ++ api_version_files.
Proof.
  intros H. unfold resolve_targets. rewrite H. reflexivity.
Qed.

Lemma resolve_targets_nonempty (args : Namespace) :
  resolve_targets args <> [].
Proof.
  destruct (opt_truthy (stub_src_jar args)) eqn:H.
  - destruct (stub_src_jar args) as [l|] eqn:Hs; [|done].
    destruct l; [done|].
    by rewrite (resolve_targets_overrides args _ Hs).
  - by rewrite resolve_targets_default.
Qed.

(** *** What each step does to the world *)

(** Case analysis on the node a step looks up. *)
Ltac case_node :=
  match goal with
  | |- context [match node_at ?f ?p with _ => _ end] =>
      destruct (node_at f p) as [[?|]|] eqn:?
  end.

Lemma chdir_ok (s : string) (w w' : world) :
  chdir s w = (inr tt, w') ->
  exists p,
    resolve (w_fs w) (w_cwd w) s = inr p
    /\ node_at (w_fs w) p = Some Dir
    /\ w' = World p (w_fs w) (w_trace w).
Proof.
  unfold chdir, bind, get_cwd, get_fs, put_cwd, raise. simpl.
  destruct (resolve _ _ s) as [e|p]; [done|].
  destruct (node_at _ p) as [[|]|] eqn:Hn; intros [= <-]. by exists p.
Qed.

Lemma chdir_err (s : string) (w w' : world) (e : exn) :
  chdir s w = (inl e, w') -> w' = w.
Proof.
  unfold chdir, bind, get_cwd, get_fs, put_cwd, raise. simpl.
  destruct (resolve _ _ s) as [e'|p]; [by intros [= _ <-]|].
  destruct (node_at _ p) as [[|]|]; intros [= ]; done.
Qed.

Lemma mkdir_ok (s : string) (w w' : world) :
  mkdir s w = (inr tt, w') ->
  exists p,
    resolve_path (w_fs w) (w_cwd w) s = inr p
    /\ node_at (w_fs w) p = None
    /\ node_at (w_fs w) (parent p) = Some Dir
    /\ w' = World (w_cwd w) (<[p := Dir]> (w_fs w)) (w_trace w).
Proof.
  unfold mkdir, bind, get_cwd, get_fs, put_fs, raise, exists_at. simpl.
  destruct (resolve_path _ _ s) as [e|p]; [done|].
  destruct (node_at (w_fs w) p) as [[|]|] eqn:Hn; try done.
  destruct (node_at (w_fs w) (parent p)) as [[|]|] eqn:Hp; try done.
  intros [= <-]. by exists p.
Qed.

Lemma mkdir_err (s : string) (w w' : world) (e : exn) :
  mkdir s w = (inl e, w') -> w' = w.
Proof.
  unfold mkdir, bind, get_cwd, get_fs, put_fs, raise, exists_at. simpl.
  destruct (resolve_path _ _ s) as [e'|p]; [by intros [= _ <-]|].
  destruct (node_at (w_fs w) p) as [[|]|]; try (by intros [= ]).
  destruct (node_at (w_fs w) (parent p)) as [[|]|]; by intros [= ].
Qed.

(** Where a copy into the directory [out] writes. *)
Lemma copy_destination (fs : gmap (list string) node) (cwd out : list string)
    (dst n : string) :
  resolve_path fs cwd dst = inr out ->
  is_dir fs out = true ->
  walk fs (start cwd dst) (path_comps dst ++ [n])
  = if is_name n then inr (out ++ [n])
    else if String.eqb n ".." then
      if is_dir fs (parent out) then inr (parent out)
      else inl FileNotFoundError
    else inr out.
Proof.
  unfold resolve_path. intros Hr Hd. rewrite walk_app, Hr.
  by apply walk_one.
Qed.

(** A copy that succeeds: the source has a proper name and is a file, it
    is not the file being written, and the directory gets an entry under
    the source's name. *)
Lemma shutil_copy_ok (src dst : string) (w w' : world) (out : list string) :
  shutil_copy src dst w = (inr tt, w') ->
  resolve_path (w_fs w) (w_cwd w) dst = inr out ->
  is_dir (w_fs w) out = true ->
  exists s c,
    is_name (basename src) = true
    /\ resolve (w_fs w) (w_cwd w) src = inr s
    /\ w_fs w !! s = Some (File c)
    /\ s <> out ++ [basename src]
    /\ node_at (w_fs w) (out ++ [basename src]) <> Some Dir
    /\ w' = World (w_cwd w) (<[out ++ [basename src] := File c]> (w_fs w))
               (w_trace w).
Proof.
  unfold shutil_copy, bind, get_cwd, get_fs, put_fs, raise. simpl.
  intros H Hr Hd. rewrite Hr, Hd in H.
  rewrite (copy_destination _ _ _ _ _ Hr Hd) in H.
  destruct (resolve (w_fs w) (w_cwd w) src) as [e|s] eqn:Hs.
  { done. }
  pose proof (resolve_basename _ _ _ _ Hs) as Hb.
  destruct (is_name (basename src)) eqn:Hn.
  - destruct Hb as [q ->]. unfold exists_at in H.
    assert (Hnode : node_at (w_fs w) (q ++ [basename src])
                    = w_fs w !! (q ++ [basename src])) by (by destruct q).
    rewrite Hnode in H.
    destruct (w_fs w !! (q ++ [basename src])) as [[c|]|] eqn:Hq;
      simpl in H; [ | by case_bool_decide | done ].
    case_bool_decide as Hsame; [done|]. simpl in H.
    exists (q ++ [basename src]), c.
    destruct (node_at (w_fs w) (out ++ [basename src])) as [[|]|] eqn:Hdst;
      try done;
      destruct (node_at (w_fs w) (parent _)) as [[|]|]; try done;
      injection H as <-; done.
  - apply is_dir_node_at in Hb. rewrite Hb in H.
    match type of H with (if ?b then _ else _) _ = _ => destruct b end;
      done.
Qed.

Lemma shutil_copy_frame (src dst : string) (w : world) :
  let w' := snd (shutil_copy src dst w) in
  w_cwd w' = w_cwd w /\ w_trace w' = w_trace w.
Proof.
  unfold shutil_copy, bind, get_cwd, get_fs, put_fs, raise. simpl.
  match goal with |- context [if ?b then _ else _] => destruct b end;
    [done|].
  destruct (resolve _ _ src) as [e|ps]; [done|].
  destruct (node_at (w_fs w) ps) as [[c|]|]; try done.
  match goal with |- context [match ?d with inl _ => _ | inr _ => _ end] =>
    destruct d as [e|pd] end; [done|].
  repeat case_node; done.
Qed.

Lemma copy_loop_frame (ts : list string) (dst : string) (w : world) :
  let w' := snd (for_each ts (fun t => shutil_copy t dst) w) in
  w_cwd w' = w_cwd w /\ w_trace w' = w_trace w.
Proof.
  revert w. induction ts as [|t ts IH]; intros w; simpl; [done|].
  unfold bind. pose proof (shutil_copy_frame t dst w) as [Hc Ht].
  destruct (shutil_copy t dst w) as [[e|[]] w1]; simpl in *; [done|].
  destruct (IH w1) as [Hc' Ht']. split; congruence.
Qed.

(** *** The copy loop *)

(** Writing a file where no directory is leaves the directories as they
    are. *)
Lemma is_dir_insert_file (fs : gmap (list string) node) (k : list string)
    (c : list string) (q : list string) :
  k <> [] ->
  node_at fs k <> Some Dir ->
  is_dir (<[k := File c]> fs) q = is_dir fs q.
Proof.
  intros Hk Hn. unfold is_dir. destruct q as [|a q]; [done|]. simpl.
  destruct (decide (k = a :: q)) as [->|Hne].
  - rewrite lookup_insert_eq. simpl in Hn.
    by destruct (fs !! (a :: q)) as [[|]|].
  - by rewrite lookup_insert_ne.
Qed.

Lemma app_singleton_ne_nil (l : list string) (x : string) : l ++ [x] <> [].
Proof. by destruct l. Qed.

(** A loop of copies into the directory [out] that ends without an
    exception: the directories are as before; every path that is not the
    destination of a target is left alone; every target has a proper name
    and a file under that name in [out], and names a file that is the
    destination of no target. *)
Lemma copy_loop_ok (ts : list string) (dst : string) (w w' : world)
    (out : list string) :
  for_each ts (fun t => shutil_copy t dst) w = (inr tt, w') ->
  resolve_path (w_fs w) (w_cwd w) dst = inr out ->
  is_dir (w_fs w) out = true ->
  (forall q, is_dir (w_fs w') q = is_dir (w_fs w) q)
  /\ (forall p, (forall t, t ∈ ts -> p <> out ++ [basename t]) ->
                w_fs w' !! p = w_fs w !! p)
  /\ (forall t, t ∈ ts ->
        is_name (basename t) = true
        /\ (exists c0, w_fs w' !! (out ++ [basename t]) = Some (File c0))
        /\ exists s c,
             resolve (w_fs w) (w_cwd w) t = inr s
             /\ w_fs w !! s = Some (File c)
             /\ forall t', t' ∈ ts -> s <> out ++ [basename t']).
Proof.
  revert w. induction ts as [|t ts IH]; intros w; simpl.
  - intros [= <-] _ _. split; [done|]. split; [done|].
    intros t Ht. by apply elem_of_nil in Ht.
  - unfold bind.
    destruct (shutil_copy t dst w) as [[e|[]] w1] eqn:Hc; [done|].
    intros Hloop Hr Hd.
    destruct (shutil_copy_ok _ _ _ _ _ Hc Hr Hd)
      as (s & c & Hn & Hs & Hfile & Hne & Hnd & ->).
    assert (Hdirs : forall q,
              is_dir (<[out ++ [basename t] := File c]> (w_fs w)) q
              = is_dir (w_fs w) q).
    { intros q. apply is_dir_insert_file; [apply app_singleton_ne_nil|done]. }
    assert (Hr1 : resolve_path (<[out ++ [basename t] := File c]> (w_fs w))
                    (w_cwd w) dst = inr out).
    { eapply resolve_path_mono; [|exact Hr]. intros q. by rewrite Hdirs. }
    assert (Hd1 : is_dir (<[out ++ [basename t] := File c]> (w_fs w)) out
                  = true) by (by rewrite Hdirs).
    destruct (IH _ Hloop Hr1 Hd1) as (Ha & Hb & Hc1). simpl in Ha, Hb, Hc1.
    pose proof (resolve_basename _ _ _ _ Hs) as Hq. rewrite Hn in Hq.
    destruct Hq as [q Hq].
    assert (Hsrc : forall t', t' ∈ ts ->
              exists s' c',
                resolve (w_fs w) (w_cwd w) t' = inr s'
                /\ w_fs w !! s' = Some (File c')
                /\ s' <> out ++ [basename t]
                /\ forall t'', t'' ∈ ts -> s' <> out ++ [basename t'']).
    { intros t' Ht'.
      destruct (Hc1 t' Ht') as (Hn' & _ & s' & c' & Hs' & Hf' & Hall').
      assert (Hs0 : resolve (w_fs w) (w_cwd w) t' = inr s').
      { eapply resolve_mono; [|exact Hs']. intros q'. by rewrite Hdirs. }
      pose proof (resolve_basename _ _ _ _ Hs0) as Hq'. rewrite Hn' in Hq'.
      destruct Hq' as [q' Hq'].
      assert (Hk : s' <> out ++ [basename t]).
      { intros Heq. apply (Hall' t' Ht'). rewrite Heq. f_equal.
        rewrite Hq' in Heq. by apply app_inj_tail in Heq as [_ ->]. }
      exists s', c'. split; [done|]. split; [|done].
      by rewrite lookup_insert_ne in Hf'. }
    split; [intros q'; by rewrite Ha, Hdirs|]. split.
    + intros p Hp. rewrite Hb.
      * apply lookup_insert_ne. intros <-. eapply Hp; [|done]. by left.
      * intros t' Ht'. apply Hp. by right.
    + intros t' [->|Ht']%elem_of_cons.
      * split; [done|]. split.
        -- destruct (decide (Exists (fun t' => basename t' = basename t) ts))
             as [Hex|Hnex].
           ++ apply Exists_exists in Hex as (t' & Ht' & Heq).
              destruct (Hc1 t' Ht') as (_ & [c0 Hc0] & _).
              exists c0. by rewrite <- Heq.
           ++ exists c. rewrite Hb; [by rewrite lookup_insert_eq|].
              intros t' Ht' Heq. apply Hnex, Exists_exists. exists t'.
              split; [done|]. by apply app_inj_tail in Heq as [_ ->].
        -- exists s, c. split; [done|]. split; [done|].
           intros t' Ht' Heq. apply Hne. rewrite Heq. f_equal.
           rewrite Hq in Heq. by apply app_inj_tail in Heq as [_ ->].
      * destruct (Hc1 t' Ht') as (Hn' & Hdst & _).
        split; [done|]. split; [done|].
        destruct (Hsrc t' Ht') as (s' & c' & Hs' & Hf' & Hk & Hall').
        exists s', c'. split; [done|]. split; [done|].
        intros t'' [->|Ht'']%elem_of_cons; [done|by apply Hall'].
Qed.

(** The file a successful loop leaves under a name is the copy of the
    last target of that name: a target after which only the same target
    has its name is copied there. *)
Lemma copy_loop_last (ts : list string) (dst : string) (w w' : world)
    (out : list string) :
  for_each ts (fun t => shutil_copy t dst) w = (inr tt, w') ->
  resolve_path (w_fs w) (w_cwd w) dst = inr out ->
  is_dir (w_fs w) out = true ->
  forall l1 t l2,
    ts = l1 ++ t :: l2 ->
    (forall t', t' ∈ l2 -> basename t' = basename t -> t' = t) ->
    exists s c,
      resolve (w_fs w) (w_cwd w) t = inr s
      /\ w_fs w !! s = Some (File c)
      /\ w_fs w' !! (out ++ [basename t]) = Some (File c).
Proof.
  revert w. induction ts as [|a ts IH]; intros w Hloop Hr Hd l1 t l2 Hts Hl2.
  { by destruct l1. }
  pose proof (copy_loop_ok _ _ _ _ _ Hloop Hr Hd) as (_ & _ & Hall).
  simpl in Hloop. unfold bind in Hloop.
  destruct (shutil_copy a dst w) as [[e|[]] w1] eqn:Hc; [done|].
  destruct (shutil_copy_ok _ _ _ _ _ Hc Hr Hd)
    as (s & c & Hn & Hs & Hfile & Hne & Hnd & ->).
  assert (Hdirs : forall q,
            is_dir (<[out ++ [basename a] := File c]> (w_fs w)) q
            = is_dir (w_fs w) q).
  { intros q. apply is_dir_insert_file; [apply app_singleton_ne_nil|done]. }
  assert (Hr1 : resolve_path (<[out ++ [basename a] := File c]> (w_fs w))
                  (w_cwd w) dst = inr out).
  { eapply resolve_path_mono; [|exact Hr]. intros q. by rewrite Hdirs. }
  assert (Hd1 : is_dir (<[out ++ [basename a] := File c]> (w_fs w)) out
                = true) by (by rewrite Hdirs).
  (* what the rest of the loop says about a target, read before the
     first copy *)
  assert (Hback : forall m1 m2,
            ts = m1 ++ t :: m2 ->
            (forall t', t' ∈ m2 -> basename t' = basename t -> t' = t) ->
            exists s c,
              resolve (w_fs w) (w_cwd w) t = inr s
              /\ w_fs w !! s = Some (File c)
              /\ w_fs w' !! (out ++ [basename t]) = Some (File c)).
  { intros m1 m2 Hm Hm2.
    destruct (IH _ Hloop Hr1 Hd1 m1 t m2 Hm Hm2) as (s' & c' & Hs' & Hf' & Hw).
    simpl in Hs', Hf'.
    assert (Hin : t ∈ a :: ts).
    { right. rewrite Hm. apply elem_of_app. right. by left. }
    destruct (Hall t Hin) as (_ & _ & s0 & c0 & Hs0 & Hf0 & Hno).
    assert (s' = s0) as ->.
    { unfold resolve in Hs', Hs0. destruct (String.eqb t ""); [done|].
      eapply walk_det; eassumption. }
    exists s0, c'. split; [done|]. split; [|done].
    rewrite lookup_insert_ne in Hf'; [done|].
    intros Heq. apply (Hno a); [by left|done]. }
  destruct l1 as [|b l1]; simpl in Hts; injection Hts as -> Hts.
  - subst l2. destruct (decide (t ∈ ts)) as [Hin|Hnin].
    + apply list_elem_of_split in Hin as (m1 & m2 & Hm).
      apply (Hback m1 m2 Hm). intros t' Ht'. apply Hl2. rewrite Hm.
      apply elem_of_app. right. by right.
    + exists s, c. split; [done|]. split; [done|].
      destruct (copy_loop_ok _ _ _ _ _ Hloop Hr1 Hd1) as (_ & Hframe & _).
      simpl in Hframe. rewrite Hframe; [by rewrite lookup_insert_eq|].
      intros t' Ht' Heq. apply app_inj_tail in Heq as [_ Heq].
      apply Hnin. by rewrite <- (Hl2 t' Ht' (eq_sym Heq)).
  - by apply (Hback l1 l2).
Qed.

(** *** The run as a whole *)

Section Run.

Variable spawn : list string -> list string -> gmap (list string) node
                 -> proc_result.

(** The run never starts more than one child, and that child is the build
    of the resolved targets, started in the root directory on the file
    system the script was given, after the destination was found
    missing. *)
Lemma main_trace (environ : gmap string string) (args : Namespace)
    (w w' : world) (r : exn + unit) :
  main spawn environ args w = (r, w') ->
  w_trace w' = w_trace w
  \/ exists top root,
       environ !! "ANDROID_BUILD_TOP" = Some top
       /\ resolve (w_fs w) (w_cwd w) top = inr root
       /\ present (w_fs w) root (directory args) = false
       /\ w_trace w'
          = w_trace w ++ [Run (soong_ui ++ resolve_targets args)
                              root (w_fs w)].
Proof.
  unfold main. destruct (environ !! "ANDROID_BUILD_TOP") as [top|] eqn:Ht;
    [|intros [= _ <-]; by left].
  destruct (String.eqb top ""); [intros [= _ <-]; by left|].
  unfold bind at 1.
  destruct (chdir top w) as [[e|[]] w1] eqn:Hc.
  { apply chdir_err in Hc as ->. intros [= _ <-]. by left. }
  apply chdir_ok in Hc as (root & Hroot & _ & ->).
  unfold bind at 1. unfold path_exists, bind, get_cwd, get_fs, ret. simpl.
  destruct (present _ _ _) eqn:He; [intros [= _ <-]; by left|].
  intros H. right. exists top, root.
  split; [done|]. split; [done|]. split; [done|].
  revert H.
  unfold subprocess_run, bind, get_cwd, get_fs, log, put_fs, raise, ret.
  simpl.
  match goal with |- context [spawn ?a ?b ?c] =>
    destruct (spawn a b c) as [code fsb|] end; simpl;
    [|by intros [= _ <-]].
  destruct (negb (code =? 0)%Z); simpl; [by intros [= _ <-]|].
  match goal with |- context [mkdir ?s ?w0] =>
    destruct (mkdir s w0) as [[e|[]] w2] eqn:Hm end.
  { apply mkdir_err in Hm as ->. by intros [= _ <-]. }
  apply mkdir_ok in Hm as (out & _ & _ & _ & ->). simpl.
  match goal with |- context [for_each ?l ?f ?w0] =>
    pose proof (copy_loop_frame l (directory args) w0) as [_ Hf] end.
  simpl in Hf. intros H. rewrite H in Hf. exact Hf.
Qed.

(** A run that ends without an exception went through every step. *)
Lemma main_ok (environ : gmap string string) (args : Namespace)
    (w w' : world) :
  main spawn environ args w = (inr tt, w') ->
  exists top root built out,
    let targets := resolve_targets args in
    let tr := w_trace w ++ [Run (soong_ui ++ targets) root (w_fs w)] in
    environ !! "ANDROID_BUILD_TOP" = Some top
    /\ resolve (w_fs w) (w_cwd w) top = inr root
    /\ node_at (w_fs w) root = Some Dir
    /\ present (w_fs w) root (directory args) = false
    /\ spawn (soong_ui ++ targets) root (w_fs w) = Exited 0 built
    /\ resolve_path built root (directory args) = inr out
    /\ node_at built out = None
    /\ node_at built (parent out) = Some Dir
    /\ for_each targets (fun t => shutil_copy t (directory args))
         (World root (<[out := Dir]> built) tr) = (inr tt, w').
Proof.
  unfold main. destruct (environ !! "ANDROID_BUILD_TOP") as [top|] eqn:Ht;
    [|done].
  destruct (String.eqb top ""); [done|].
  unfold bind at 1.
  destruct (chdir top w) as [[e|[]] w1] eqn:Hc; [done|].
  apply chdir_ok in Hc as (root & Hroot & Hdir & ->).
  unfold bind at 1. unfold path_exists, bind, get_cwd, get_fs, ret. simpl.
  destruct (present _ _ _) eqn:He; [done|].
  unfold subprocess_run, bind, get_cwd, get_fs, log, put_fs, raise, ret.
  simpl.
  match goal with |- context [spawn ?a ?b ?c] =>
    destruct (spawn a b c) as [code fsb|] eqn:Hsp end; simpl; [|done].
  destruct (code =? 0)%Z eqn:Hcode; simpl; [|done].
  apply Z.eqb_eq in Hcode as ->.
  match goal with |- context [mkdir ?s ?w0] =>
    destruct (mkdir s w0) as [[e|[]] w2] eqn:Hm end; [done|].
  apply mkdir_ok in Hm as (out & Hout & Hnone & Hpar & ->). simpl in *.
  intros Hloop. exists top, root, fsb, out. done.
Qed.

(** The copy loop of a run that ends without an exception starts with
    the destination directory in place. *)
Lemma destination_in_place (built : gmap (list string) node)
    (root out : list string) (dir : string) :
  resolve_path built root dir = inr out ->
  node_at built out = None ->
  resolve_path (<[out := Dir]> built) root dir = inr out
  /\ is_dir (<[out := Dir]> built) out = true
  /\ built !! out = None
  /\ forall q, is_dir built q = true -> is_dir (<[out := Dir]> built) q = true.
Proof.
  intros Hr Hnone.
  assert (Hne : out <> []) by (by intros ->).
  assert (Hb : built !! out = None) by (by destruct out).
  assert (Hmono : forall q, is_dir built q = true ->
                            is_dir (<[out := Dir]> built) q = true).
  { intros q. unfold is_dir. destruct q as [|a q]; [done|]. simpl.
    destruct (decide (out = a :: q)) as [->|Hq].
    - by rewrite lookup_insert_eq.
    - by rewrite lookup_insert_ne. }
  split; [by eapply resolve_path_mono|]. split; [|done].
  unfold is_dir. destruct out; [done|]. simpl. by rewrite lookup_insert_eq.
Qed.

(** C3: when the destination directory already exists, as the script
    sees it after changing to the build root, the run ends with an
    exception and exit status 1, no child process has been started and the
    file system is untouched. *)
Theorem existing_destination_fails_before_build
    (environ : gmap string string) (args : Namespace) (w : world) :
  (forall top root,
     environ !! "ANDROID_BUILD_TOP" = Some top ->
     resolve (w_fs w) (w_cwd w) top = inr root ->
     present (w_fs w) root (directory args) = true) ->
  exists e w',
    main spawn environ args w = (inl e, w')
    /\ exit_code (fst (main spawn environ args w)) = 1%Z
    /\ w_trace w' = w_trace w
    /\ w_fs w' = w_fs w.
Proof.
  intros Hex.
  enough (exists e w', main spawn environ args w = (inl e, w')
                       /\ w_trace w' = w_trace w /\ w_fs w' = w_fs w)
    as (e & w' & Hm & Htr & Hfs).
  { exists e, w'. by rewrite Hm. }
  unfold main.
  destruct (environ !! "ANDROID_BUILD_TOP") as [top|] eqn:Ht;
    [|by eexists _, _].
  destruct (String.eqb top ""); [by eexists _, _|].
  unfold bind at 1.
  destruct (chdir top w) as [[e|[]] w1] eqn:Hc.
  { apply chdir_err in Hc as ->. by eexists _, _. }
  apply chdir_ok in Hc as (root & Hroot & _ & ->).
  specialize (Hex top root eq_refl Hroot).
  unfold bind, path_exists, get_cwd, get_fs, ret. simpl.
  rewrite Hex. by eexists _, _.
Qed.

(** C4: without [--stub-src-jar] the targets are the thirteen default
    ones: four stub source jars, five JDiff files, four api-versions
    files, in this order; a build that is started gets exactly these as
    its goals. *)
Theorem default_target_list (d : string) (environ : gmap string string)
    (cwd : list string) (fs : gmap (list string) node) :
  let args := {| directory := d; stub_src_jar := None |} in
  let defaults :=
    [ "out/target/common/docs/api-stubs-docs-non-updatable-stubs.srcjar";
      "out/target/common/docs/system-api-stubs-docs-non-updatable-stubs.srcjar";
      "out/target/common/docs/test-api-stubs-docs-non-updatable-stubs.srcjar";
      "out/target/common/docs/module-lib-api-stubs-docs-non-updatable-stubs.srcjar";
      "out/target/common/obj/api.xml";
      "out/target/common/obj/system-api.xml";
      "out/target/common/obj/module-lib-api.xml";
      "out/target/common/obj/system-server-api.xml";
      "out/target/common/obj/test-api.xml";
      "out/soong/lint/api_versions_public.xml";
      "out/soong/lint/api_versions_system.xml";
      "out/soong/lint/api_versions_module_lib.xml";
      "out/soong/lint/api_versions_system_server.xml" ] in
  resolve_targets args = defaults
  /\ length (resolve_targets args) = 13
  /\ Forall (fun ev => ev_argv ev = soong_ui ++ defaults)
       (w_trace (snd (main spawn environ args (World cwd fs [])))).
Proof.
  intros args defaults.
  assert (Hd : resolve_targets args = defaults) by reflexivity.
  split; [done|]. split; [done|].
  destruct (main spawn environ args (World cwd fs [])) as [r w'] eqn:Hm.
  apply main_trace in Hm as [Ht|(top & root & _ & _ & _ & Ht)]; simpl in *;
    rewrite Ht.
  - constructor.
  - constructor; [|constructor]. simpl. by rewrite Hd.
Qed.

(** C5: with one or more [--stub-src-jar] values the targets are exactly
    these values in the order given; a build that is started gets exactly
    these as its goals, and a default target is among the targets only
    when the user named it. *)
Theorem override_target_list (environ : gmap string string)
    (args : Namespace) (l : list string) (cwd : list string)
    (fs : gmap (list string) node) :
  stub_src_jar args = Some l ->
  l <> [] ->
  resolve_targets args = l
  /\ Forall (fun ev => ev_argv ev = soong_ui ++ l)
       (w_trace (snd (main spawn environ args (World cwd fs []))))
  /\ (forall t, t ∈ default_stub_files ++ jdiff_files ++ api_version_files ->
        t ∈ resolve_targets args -> t ∈ l).
Proof.
  intros Hs Hl.
  pose proof (resolve_targets_overrides args l Hs Hl) as Hr.
  split; [done|]. split.
  - destruct (main spawn environ args (World cwd fs [])) as [r w'] eqn:Hm.
    apply main_trace in Hm as [Ht|(top & root & _ & _ & _ & Ht)];
      simpl in *; rewrite Ht.
    + constructor.
    + constructor; [|constructor]. simpl. by rewrite Hr.
  - intros t _. by rewrite Hr.
Qed.

(** C10: the target list is never empty, so every build the script
    starts has at least one goal after [--make-mode]. *)
Theorem build_goals_never_empty (environ : gmap string string)
    (args : Namespace) (cwd : list string) (fs : gmap (list string) node) :
  resolve_targets args <> []
  /\ Forall (fun ev => exists goals,
               goals <> [] /\ ev_argv ev = soong_ui ++ goals)
       (w_trace (snd (main spawn environ args (World cwd fs [])))).
Proof.
  split; [apply resolve_targets_nonempty|].
  destruct (main spawn environ args (World cwd fs [])) as [r w'] eqn:Hm.
  apply main_trace in Hm as [Ht|(top & root & _ & _ & _ & Ht)]; simpl in *;
    rewrite Ht.
  - constructor.
  - constructor; [|constructor]. exists (resolve_targets args).
    split; [apply resolve_targets_nonempty|done].
Qed.

(** C9: a relative destination is read from the build root, not from the
    directory the script was started in.  In a run that ends without an
    exception the script has changed to the root; the destination, walked
    from the root, named nothing on the file system the script was given;
    walked from the root on the file system the build left, it names the
    place [out]; and in the end [out] is a directory with a file under the
    name of every target. *)
Theorem relative_destination_is_below_root (environ : gmap string string)
    (args : Namespace) (w w' : world) (top : string) :
  environ !! "ANDROID_BUILD_TOP" = Some top ->
  is_abs (directory args) = false ->
  main spawn environ args w = (inr tt, w') ->
  exists root built out,
    resolve (w_fs w) (w_cwd w) top = inr root
    /\ w_cwd w' = root
    /\ present (w_fs w) root (directory args) = false
    /\ spawn (soong_ui ++ resolve_targets args) root (w_fs w)
       = Exited 0 built
    /\ walk built root (path_comps (directory args)) = inr out
    /\ node_at (w_fs w') out = Some Dir
    /\ (forall t, t ∈ resolve_targets args ->
          exists c, w_fs w' !! (out ++ [basename t]) = Some (File c)).
Proof.
  intros Htop Hrel Hm.
  destruct (main_ok _ _ _ _ Hm)
    as (top' & root & built & out & Ht & Hroot & _ & Hex & Hsp & Hout
        & Hnone & _ & Hloop).
  rewrite Htop in Ht. injection Ht as <-.
  destruct (destination_in_place _ _ _ _ Hout Hnone) as (Hr1 & Hd1 & _ & _).
  match type of Hloop with for_each ?l ?f ?w0 = _ =>
    pose proof (copy_loop_frame l (directory args) w0) as [Hcwd _] end.
  rewrite Hloop in Hcwd. simpl in Hcwd.
  destruct (copy_loop_ok _ _ _ _ _ Hloop Hr1 Hd1) as (Hdirs & _ & Hall).
  exists root, built, out. split; [done|]. split; [done|]. split; [done|].
  split; [done|]. split.
  { unfold resolve_path, start in Hout. by rewrite Hrel in Hout. }
  split.
  - apply is_dir_node_at. by rewrite Hdirs.
  - intros t Hin. by destruct (Hall t Hin) as (_ & ? & _).
Qed.

(** C2, amended: a run that ends without an exception leaves in the
    destination directory one file for every file name among the targets,
    and no other entry; the file of a name is the copy of the last target
    of that name.  So a target has its copy whenever every later target of
    its name is the same target: all of them when no two different targets
    share a name. (The file systems are well formed: every node sits in a
    directory.) *)
Theorem one_copy_of_each_target (environ : gmap string string)
    (args : Namespace) (w w' : world) :
  fs_wf (w_fs w) ->
  (forall argv cwd fs code fs',
     fs_wf fs -> spawn argv cwd fs = Exited code fs' -> fs_wf fs') ->
  main spawn environ args w = (inr tt, w') ->
  exists built out,
    spawn (soong_ui ++ resolve_targets args) (w_cwd w') (w_fs w)
    = Exited 0 built
    /\ resolve_path built (w_cwd w') (directory args) = inr out
    /\ (forall l1 t l2,
          resolve_targets args = l1 ++ t :: l2 ->
          (forall t', t' ∈ l2 -> basename t' = basename t -> t' = t) ->
          has_copy built (w_fs w') (w_cwd w') out t)
    /\ ((forall t1 t2,
           t1 ∈ resolve_targets args -> t2 ∈ resolve_targets args ->
           basename t1 = basename t2 -> t1 = t2) ->
        forall t, t ∈ resolve_targets args ->
          has_copy built (w_fs w') (w_cwd w') out t)
    /\ (forall n, is_Some (w_fs w' !! (out ++ [n]))
                  <-> exists t, t ∈ resolve_targets args /\ n = basename t).
Proof.
  intros Hwf Hspawn Hm.
  destruct (main_ok _ _ _ _ Hm)
    as (top & root & built & out & Ht & Hroot & _ & Hex & Hsp & Hout
        & Hnone & _ & Hloop).
  destruct (destination_in_place _ _ _ _ Hout Hnone)
    as (Hr1 & Hd1 & Hb & Hmono).
  match type of Hloop with for_each ?l ?f ?w0 = _ =>
    pose proof (copy_loop_frame l (directory args) w0) as [Hcwd _] end.
  rewrite Hloop in Hcwd. simpl in Hcwd. rewrite Hcwd.
  destruct (copy_loop_ok _ _ _ _ _ Hloop Hr1 Hd1) as (Hdirs & Hframe & Hall).
  simpl in Hdirs, Hframe, Hall.
  assert (Hlast : forall l1 t l2,
            resolve_targets args = l1 ++ t :: l2 ->
            (forall t', t' ∈ l2 -> basename t' = basename t -> t' = t) ->
            has_copy built (w_fs w') root out t).
  { intros l1 t l2 Hts Hl2.
    destruct (copy_loop_last _ _ _ _ _ Hloop Hr1 Hd1 l1 t l2 Hts Hl2)
      as (s & c & Hs & Hf & Hw). simpl in Hs, Hf.
    exists s, c. split.
    - eapply resolve_mono; [|exact Hs]. intros q. by rewrite Hdirs.
    - split; [|done]. rewrite lookup_insert_ne in Hf; [done|].
      intros <-. by rewrite lookup_insert_eq in Hf. }
  exists built, out. split; [done|]. split; [done|]. split; [done|]. split.
  - intros Hinj t Hin.
    apply list_elem_of_split in Hin as (l1 & l2 & Hts).
    apply (Hlast l1 t l2 Hts). intros t' Ht' Hbn.
    apply Hinj; [| |done]; rewrite Hts, elem_of_app; right;
      [by right|by left].
  - intros n. split.
    + intros Hsome.
      destruct (decide (Exists (fun t => n = basename t)
                          (resolve_targets args))) as [Hex'|Hnex].
      { apply Exists_exists in Hex' as (t & Hin & ->). by exists t. }
      exfalso. rewrite Hframe in Hsome.
      * rewrite lookup_insert_ne in Hsome.
        2:{ intros H. apply (f_equal length) in H.
            rewrite length_app in H. simpl in H. lia. }
        destruct Hsome as [x Hx].
        assert (Hwfb : fs_wf built)
          by (eapply Hspawn; [exact Hwf|exact Hsp]).
        specialize (Hwfb _ _ Hx). simpl in Hwfb.
        unfold parent in Hwfb. rewrite removelast_last in Hwfb.
        congruence.
      * intros t Hin Heq. apply Hnex, Exists_exists. exists t.
        split; [done|]. by apply app_inj_tail in Heq as [_ ->].
    + intros (t & Hin & ->). destruct (Hall t Hin) as (_ & [c Hc] & _).
      by exists (File c).
Qed.

End Run.

Import Examples.

#[local] Instance fs_wf_dec (fs : gmap (list string) node) : Decision (fs_wf fs).
Proof. unfold fs_wf. apply _. Defined.

(** A witness of [existing_destination_fails_before_build]: from the
    build root [/top] the destination [../home] is the existing directory
    [/home]. *)
Lemma existing_destination_witness :
  exists e w',
    main (idle 0) environ onto_home (at_home top_tree) = (inl e, w')
    /\ exit_code (fst (main (idle 0) environ onto_home
                        (at_home top_tree))) = 1%Z
    /\ w_trace w' = w_trace (at_home top_tree)
    /\ w_fs w' = w_fs (at_home top_tree).
Proof.
  apply (existing_destination_fails_before_build (idle 0) environ onto_home
           (at_home top_tree)).
  intros top root Htop Hroot. vm_compute in Htop. injection Htop as <-.
  vm_compute in Hroot. injection Hroot as <-.
  vm_compute. reflexivity.
Defined.

(** A witness of [override_target_list]. *)
Lemma override_target_witness :
  resolve_targets other_names = ["a/x.jar"; "b/y.jar"]
  /\ Forall (fun ev => ev_argv ev = soong_ui ++ ["a/x.jar"; "b/y.jar"])
       (w_trace (snd (main (idle 0) environ other_names
                        (World ["home"] top_tree []))))
  /\ (forall t, t ∈ default_stub_files ++ jdiff_files ++ api_version_files ->
        t ∈ resolve_targets other_names -> t ∈ ["a/x.jar"; "b/y.jar"]).
Proof.
  apply (override_target_list (idle 0) environ other_names
           ["a/x.jar"; "b/y.jar"] ["home"] top_tree); [reflexivity|discriminate].
Defined.

(** A witness of [relative_destination_is_below_root]: started in [/home]
    with the destination [../gathered], the script fills [/gathered], the
    place beside the build root [/top]. *)
Lemma relative_destination_witness :
  let w' := snd (main (idle 0) environ beside_root (at_home top_tree)) in
  exists root built out,
    resolve top_tree ["home"] "/top" = inr root
    /\ w_cwd w' = root
    /\ present top_tree root "../gathered" = false
    /\ idle 0 (soong_ui ++ resolve_targets beside_root) root top_tree
       = Exited 0 built
    /\ walk built root (path_comps "../gathered") = inr out
    /\ node_at (w_fs w') out = Some Dir
    /\ (forall t, t ∈ resolve_targets beside_root ->
          exists c, w_fs w' !! (out ++ [basename t]) = Some (File c)).
Proof.
  apply (relative_destination_is_below_root (idle 0) environ beside_root
           (at_home top_tree) _ "/top");
    [reflexivity | reflexivity | vm_compute; reflexivity].
Defined.

(** A witness of [one_copy_of_each_target]: two targets of different
    names, gathered beside the build root. *)
Lemma one_copy_witness :
  let w' := snd (main (idle 0) environ beside_root (at_home top_tree)) in
  exists built out,
    idle 0 (soong_ui ++ resolve_targets beside_root) (w_cwd w') top_tree
    = Exited 0 built
    /\ resolve_path built (w_cwd w') "../gathered" = inr out
    /\ (forall l1 t l2,
          resolve_targets beside_root = l1 ++ t :: l2 ->
          (forall t', t' ∈ l2 -> basename t' = basename t -> t' = t) ->
          has_copy built (w_fs w') (w_cwd w') out t)
    /\ ((forall t1 t2,
           t1 ∈ resolve_targets beside_root ->
           t2 ∈ resolve_targets beside_root ->
           basename t1 = basename t2 -> t1 = t2) ->
        forall t, t ∈ resolve_targets beside_root ->
          has_copy built (w_fs w') (w_cwd w') out t)
    /\ (forall n, is_Some (w_fs w' !! (out ++ [n]))
                  <-> exists t, t ∈ resolve_targets beside_root
                                /\ n = basename t).
Proof.
  apply (one_copy_of_each_target (idle 0) environ beside_root
           (at_home top_tree)).
  - apply (bool_decide_unpack _). vm_compute. reflexivity.
  - intros argv cwd fs code fs' Hwf [= _ <-]. exact Hwf.
  - vm_compute. reflexivity.
Defined.

(** C2 as stated fails: with two targets of the same file name the run
    ends without an exception, and the first target has no copy in the
    destination directory: the one file of that name is the copy of the
    second. *)
Lemma shared_name_loses_a_copy :
  exists w',
    main (idle 0) environ same_names (at_home top_tree) = (inr tt, w')
    /\ "a/x.jar" ∈ resolve_targets same_names
    /\ ~ has_copy top_tree (w_fs w') ["top"] ["top"; "out"] "a/x.jar".
Proof.
  eexists. split; [vm_compute; reflexivity|]. split; [by left|].
  intros (s & c & Hs & Hb & Hd). vm_compute in Hs. injection Hs as <-.
  vm_compute in Hb, Hd. congruence.
Qed.

End GatherSpec.

(** ** The baseline refresher *)

Module RefreshSpec.
Import Posix Refresh Notions.

(** *** Strings *)

Lemma length_append (s t : string) :
  String.length (s +:+ t) = String.length s + String.length t.
Proof. induction s as [|c s IH]; simpl; [done|]. by rewrite IH. Qed.

Lemma append_inj_r (s1 s2 t : string) : s1 +:+ t = s2 +:+ t -> s1 = s2.
Proof.
  revert s2. induction s1 as [|c s1 IH]; intros [|c2 s2] H; simpl in H.
  - done.
  - apply (f_equal String.length) in H.
    rewrite !length_append in H. simpl in H. lia.
  - apply (f_equal String.length) in H.
    rewrite !length_append in H. simpl in H. lia.
  - injection H as -> H. by rewrite (IH _ H).
Qed.

Lemma test_argv_inj (n1 n2 : string) : test_argv n1 = test_argv n2 -> n1 = n2.
Proof.
  unfold test_argv. intros [= H].
  apply (String.app_inj "") in H. by apply append_inj_r in H.
Qed.

Lemma is_test_run_test_argv (n : string) : is_test_run (test_argv n) = true.
Proof. reflexivity. Qed.

Lemma is_test_run_baseline_argv (reports : list (list string))
    (baseline : list string) :
  is_test_run (baseline_argv reports baseline) = false.
Proof. reflexivity. Qed.

(** *** Globbing after deletions *)

Lemma is_dir_mono (fs fs' : gmap (list string) node) (p : list string) :
  fs' ⊆ fs -> is_dir fs' p = true -> is_dir fs p = true.
Proof.
  unfold is_dir, node_at. destruct p as [|a p]; [done|].
  intros Hsub. destruct (fs' !! (a :: p)) as [[|]|] eqn:H; try done.
  by rewrite (lookup_weaken _ _ _ _ H Hsub).
Qed.

Lemma walk_rec_mono (fs fs' : gmap (list string) node)
    (ok : string -> bool) (rel cur : list string) :
  fs' ⊆ fs -> walk_rec fs' ok cur rel = true -> walk_rec fs ok cur rel = true.
Proof.
  intros Hsub. revert cur.
  induction rel as [|d rest IH]; intros cur; simpl; [done|].
  destruct rest as [|d' rest]; [done|].
  intros [Hd Hw]%andb_true_iff. apply andb_true_iff. split.
  - by apply (is_dir_mono _ _ _ Hsub).
  - by apply IH.
Qed.

Lemma elem_of_glob_test_reports (fs : gmap (list string) node)
    (dir p : list string) :
  p ∈ glob_test_reports fs dir
  <-> is_dir fs dir = true /\ is_Some (fs !! p)
      /\ below fs is_test_report dir p = true.
Proof.
  unfold glob_test_reports. destruct (is_dir fs dir).
  - rewrite list_elem_of_In, filter_In, <- list_elem_of_In, list_elem_of_fmap.
    split.
    + intros [([q x] & -> & Hin) Hb]. apply elem_of_map_to_list in Hin.
      split; [done|]. split; [by exists x|done].
    + intros (_ & [x Hx] & Hb). split; [|done].
      exists (p, x). split; [done|]. by apply elem_of_map_to_list.
  - split; [by intros ?%elem_of_nil|]. by intros [? _].
Qed.

(** After deleting every path of a glob, and possibly more, the same glob
    finds nothing. *)
Lemma glob_test_reports_deleted (fs fs' : gmap (list string) node)
    (dir : list string) :
  fs' ⊆ fs ->
  (forall p, p ∈ glob_test_reports fs dir -> fs' !! p = None) ->
  glob_test_reports fs' dir = [].
Proof.
  intros Hsub Hdel.
  destruct (glob_test_reports fs' dir) as [|p l] eqn:Hg; [done|].
  assert (Hin : p ∈ glob_test_reports fs' dir) by (rewrite Hg; by left).
  apply elem_of_glob_test_reports in Hin as (Hd & [x Hx] & Hb).
  rewrite Hdel in Hx; [done|].
  apply elem_of_glob_test_reports. split; [by eapply is_dir_mono|].
  split; [exists x; by eapply lookup_weaken|].
  unfold below in *. destruct (strip_prefix dir p); [|done].
  by eapply walk_rec_mono.
Qed.

(** *** What each step does to the world *)

Lemma unlink_inv (missing_ok : bool) (p : list string) (w w' : world)
    (r : exn + unit) :
  unlink missing_ok p w = (r, w') ->
  w_cwd w' = w_cwd w /\ w_trace w' = w_trace w /\ w_fs w' ⊆ w_fs w
  /\ (r = inr tt -> missing_ok = false -> w_fs w' !! p = None)
  /\ (forall code, r <> inl (CalledProcessError code)).
Proof.
  unfold unlink, bind, get_fs, put_fs, raise, ret. simpl.
  destruct (node_at (w_fs w) p) as [[c|]|] eqn:Hn.
  - intros [= <- <-]. simpl. split; [done|]. split; [done|].
    split; [apply delete_subseteq|]. split; [|done].
    intros _ _. apply lookup_delete_eq.
  - by intros [= <- <-].
  - destruct missing_ok; intros [= <- <-]; done.
Qed.

Lemma unlink_loop_inv (l : list (list string)) (w w' : world)
    (r : exn + unit) :
  for_each l (unlink false) w = (r, w') ->
  w_cwd w' = w_cwd w /\ w_trace w' = w_trace w /\ w_fs w' ⊆ w_fs w
  /\ (r = inr tt -> forall p, p ∈ l -> w_fs w' !! p = None)
  /\ (forall code, r <> inl (CalledProcessError code)).
Proof.
  revert w. induction l as [|p l IH]; intros w; simpl.
  - intros [= <- <-]. split; [done|]. split; [done|]. split; [done|].
    split; [|done]. intros _ p Hp. by apply elem_of_nil in Hp.
  - unfold bind. destruct (unlink false p w) as [[e|[]] w1] eqn:Hu.
    + intros [= <- <-].
      destruct (unlink_inv _ _ _ _ _ Hu) as (? & ? & ? & _ & ?). done.
    + intros Hl.
      destruct (unlink_inv _ _ _ _ _ Hu) as (Hc & Ht & Hs & Hp & _).
      destruct (IH _ Hl) as (Hc' & Ht' & Hs' & Hp' & He').
      split; [congruence|]. split; [congruence|].
      split; [by etrans|]. split; [|done].
      intros Hr q Hq. apply elem_of_cons in Hq as [Heq|Hq];
        [subst q|by apply Hp'].
      destruct (w_fs w' !! p) eqn:Hq; [|done].
      rewrite (lookup_weaken _ _ _ _ Hq Hs') in Hp.
      by discriminate Hp.
Qed.

Section Run.

Variable spawn : list string -> list string -> gmap (list string) node
                 -> proc_result.

Lemma subprocess_run_inv (argv dir : list string) (w w' : world)
    (r : exn + Z) :
  subprocess_run spawn argv (Some dir) false w = (r, w') ->
  w_cwd w' = w_cwd w
  /\ w_trace w' = w_trace w ++ [Run argv dir (w_fs w)]
  /\ (forall e code, r = inl e -> e <> CalledProcessError code).
Proof.
  unfold subprocess_run, bind, get_cwd, get_fs, put_fs, log, raise, ret.
  simpl. destruct (spawn argv dir (w_fs w)); intros [= <- <-];
    (split; [done|]); (split; [done|]); by intros e0 c0 [= <-].
Qed.

(** One turn of the loop: at most two children are started; the test run
    finds no report; without an exception both have been started. *)
Lemma refresh_inv (md mo : list string) (p : BaselineProject)
    (w w' : world) (r : exn + unit) :
  refresh spawn md mo p w = (r, w') ->
  exists evs,
    w_trace w' = w_trace w ++ evs
    /\ Forall (clean_test_run mo) evs
    /\ (r = inr tt ->
          List.filter is_test_run (map ev_argv evs) = [test_argv (name p)]
          /\ length evs = 2)
    /\ (forall code, r <> inl (CalledProcessError code)).
Proof.
  unfold refresh. unfold bind at 1. unfold get_fs at 1.
  unfold bind at 1.
  destruct (for_each _ (unlink false) w) as [[e|[]] w1] eqn:Hl.
  { intros [= <- <-].
    destruct (unlink_loop_inv _ _ _ _ Hl) as (_ & -> & _ & _ & He).
    exists []. by rewrite app_nil_r. }
  destruct (unlink_loop_inv _ _ _ _ Hl) as (_ & Ht1 & Hs1 & Hd1 & _).
  specialize (Hd1 eq_refl).
  unfold bind at 1.
  destruct (unlink true (baseline_file p) w1) as [[e|[]] w2] eqn:Hu.
  { intros [= <- <-].
    destruct (unlink_inv _ _ _ _ _ Hu) as (_ & -> & _ & _ & He).
    exists []. by rewrite app_nil_r, Ht1. }
  destruct (unlink_inv _ _ _ _ _ Hu) as (_ & Ht2 & Hs2 & _ & _).
  assert (Hclean : clean_test_run mo (Run (test_argv (name p)) md (w_fs w2))).
  { intros n Hn. apply test_argv_inj in Hn as <-. simpl.
    apply (glob_test_reports_deleted (w_fs w)); [by etrans|].
    intros q Hq. specialize (Hd1 q Hq).
    destruct (w_fs w2 !! q) eqn:Hq2; [|done].
    by rewrite (lookup_weaken _ _ _ _ Hq2 Hs2) in Hd1. }
  unfold bind at 1.
  destruct (subprocess_run spawn (test_argv (name p)) (Some md) false w2)
    as [[e|code] w3] eqn:Hr1.
  { intros [= <- <-].
    destruct (subprocess_run_inv _ _ _ _ _ Hr1) as (_ & -> & He).
    exists [Run (test_argv (name p)) md (w_fs w2)].
    split; [congruence|]. split; [by apply Forall_singleton|].
    split; [by intros [=]|]. intros c0 [= ->]. by eapply He. }
  destruct (subprocess_run_inv _ _ _ _ _ Hr1) as (_ & Ht3 & _).
  unfold bind at 1. unfold get_fs at 1. unfold bind at 1.
  match goal with |- context [subprocess_run spawn ?a ?d ?c w3] =>
    destruct (subprocess_run spawn a d c w3) as [[e|code'] w4] eqn:Hr2;
    set (argv2 := a) in *
  end.
  - intros [= <- <-].
    destruct (subprocess_run_inv _ _ _ _ _ Hr2) as (_ & -> & He).
    exists [Run (test_argv (name p)) md (w_fs w2); Run argv2 md (w_fs w3)].
    split; [rewrite Ht3, Ht2, Ht1; by rewrite <- app_assoc|].
    split.
    { constructor; [done|]. constructor; [|constructor].
      intros n Hn. simpl in Hn. discriminate Hn. }
    split; [by intros [=]|]. intros c0 [= ->]. by eapply He.
  - unfold ret. intros [= <- <-].
    destruct (subprocess_run_inv _ _ _ _ _ Hr2) as (_ & -> & He).
    exists [Run (test_argv (name p)) md (w_fs w2); Run argv2 md (w_fs w3)].
    split; [rewrite Ht3, Ht2, Ht1; by rewrite <- app_assoc|].
    split; [|done].
    constructor; [done|]. constructor; [|constructor].
    intros n Hn. simpl in Hn. discriminate Hn.
Qed.

(** Discovery only reads. *)
Lemma scan_build_files_inv (files : list (list string))
    (acc : list BaselineProject) (w w' : world)
    (r : exn + list BaselineProject) :
  scan_build_files files acc w = (r, w') ->
  w' = w /\ (forall e code, r = inl e -> e <> CalledProcessError code).
Proof.
  revert acc. induction files as [|f files IH]; intros acc; simpl.
  - intros [= <- <-]. by split.
  - unfold read_lines, bind, get_fs, raise, ret. simpl.
    destruct (node_at (w_fs w) f) as [[c|]|].
    + apply IH.
    + intros [= <- <-]. split; [done|]. by intros e code [= <-].
    + intros [= <- <-]. split; [done|]. by intros e code [= <-].
Qed.

Lemma find_baseline_projects_inv (dir : list string) (w w' : world)
    (r : exn + list BaselineProject) :
  find_baseline_projects dir w = (r, w') ->
  w' = w /\ (forall e code, r = inl e -> e <> CalledProcessError code).
Proof.
  unfold find_baseline_projects, bind, get_fs, ret. simpl.
  destruct (scan_build_files _ [] w) as [[e|ps] w1] eqn:Hs;
    destruct (scan_build_files_inv _ _ _ _ _ Hs) as [-> He];
    intros [= <- <-]; (split; [done|]).
  - intros e0 c0 [= <-]. by eapply He.
  - done.
Qed.

(** The loop over the projects: the children it starts, in order. *)
Lemma refresh_loop_inv (md mo : list string) (ps : list BaselineProject)
    (w w' : world) (r : exn + unit) :
  for_each ps (refresh spawn md mo) w = (r, w') ->
  exists evs,
    w_trace w' = w_trace w ++ evs
    /\ Forall (clean_test_run mo) evs
    /\ (r = inr tt ->
          List.filter is_test_run (map ev_argv evs)
          = map (fun p => test_argv (name p)) ps
          /\ length evs = 2 * length ps)
    /\ (forall code, r <> inl (CalledProcessError code)).
Proof.
  revert w. induction ps as [|p ps IH]; intros w; simpl.
  - intros [= <- <-]. exists []. rewrite app_nil_r. by repeat split.
  - unfold bind. destruct (refresh spawn md mo p w) as [[e|[]] w1] eqn:Hp.
    + intros [= <- <-].
      destruct (refresh_inv _ _ _ _ _ _ Hp) as (evs & Ht & Hc & _ & He).
      exists evs. by repeat split.
    + intros Hl.
      destruct (refresh_inv _ _ _ _ _ _ Hp) as (evs1 & Ht1 & Hc1 & Hok1 & _).
      destruct (Hok1 eq_refl) as [Hf1 Hn1].
      destruct (IH _ Hl) as (evs2 & Ht2 & Hc2 & Hok2 & He2).
      exists (evs1 ++ evs2).
      split; [by rewrite Ht2, Ht1, app_assoc|].
      split; [by apply Forall_app|]. split; [|done].
      intros Hr. destruct (Hok2 Hr) as [Hf2 Hn2].
      rewrite map_app, List.filter_app, Hf1, Hf2, length_app, Hn1, Hn2.
      split; [done|lia].
Qed.

(** C7: whatever the arguments and the file system, every test run the
    script starts finds no path matching [**/TEST-*.xml] below the
    results directory of its project: the reports that were there have
    been deleted before. *)
Theorem reports_deleted_before_test_run (this projects cwd : list string)
    (fs : gmap (list string) node) :
  Forall (fun ev => forall n,
            ev_argv ev = test_argv n ->
            glob_test_reports (ev_fs ev)
              (test_reports_dir (metalava_out_dir this) n) = [])
    (w_trace (snd (main spawn this projects (World cwd fs [])))).
Proof.
  destruct (main spawn this projects (World cwd fs [])) as [r w'] eqn:Hm.
  revert Hm. unfold main. unfold bind at 1.
  destruct (find_baseline_projects _ _) as [[e|found] w1] eqn:Hf;
    destruct (find_baseline_projects_inv _ _ _ _ Hf) as [-> _].
  - intros [= _ <-]. constructor.
  - intros Hl.
    destruct (refresh_loop_inv _ _ _ _ _ _ Hl) as (evs & Ht & Hc & _).
    simpl in *. rewrite Ht. exact Hc.
Qed.

(** C6: with names on the command line, a run that ends without an
    exception has run the tests of exactly the discovered projects whose
    name is among them, in the order of discovery; names that are no
    project's name change nothing. *)
Theorem named_projects_are_refreshed_in_order (this projects : list string)
    (w w' : world) :
  projects <> [] ->
  main spawn this projects w = (inr tt, w') ->
  exists found evs,
    find_baseline_projects (metalava_dir this) w = (inr found, w)
    /\ w_trace w' = w_trace w ++ evs
    /\ List.filter is_test_run (map ev_argv evs)
       = map (fun p => test_argv (name p))
           (List.filter (fun p => name_in (name p) projects) found)
    /\ (forall extra,
          (forall n p, n ∈ extra -> p ∈ found -> name p <> n) ->
          main spawn this (projects ++ extra) w
          = main spawn this projects w).
Proof.
  intros Hne. unfold main. unfold bind at 1.
  destruct (find_baseline_projects _ _) as [[e|found] w1] eqn:Hf;
    destruct (find_baseline_projects_inv _ _ _ _ Hf) as [-> _]; [done|].
  intros Hl.
  destruct (refresh_loop_inv _ _ _ _ _ _ Hl) as (evs & Ht & _ & Hok & _).
  destruct (Hok eq_refl) as [Hfilter _].
  exists found, evs. split; [done|]. split; [done|]. split.
  - rewrite Hfilter. by destruct projects.
  - intros extra Hextra. unfold bind. rewrite Hf.
    f_equal. destruct projects as [|a l]; [done|]. simpl.
    apply filter_ext_in. intros p Hp. apply list_elem_of_In in Hp.
    unfold name_in. simpl. rewrite existsb_app.
    replace (existsb (String.eqb (name p)) extra) with false;
      [by rewrite orb_false_r|].
    symmetry. apply not_true_is_false. intros Hex.
    apply existsb_exists in Hex as (n & Hn & Heq).
    apply String.eqb_eq in Heq. apply list_elem_of_In in Hn.
    by apply (Hextra n p).
Qed.

End Run.

(** *** The exit status of the children *)

Lemma bind_ext {A B : Type} (m : M A) (k1 k2 : A -> M B) (w : world) :
  (forall a w0, k1 a w0 = k2 a w0) -> bind m k1 w = bind m k2 w.
Proof. intros H. unfold bind. destruct (m w) as [[e|a] w0]; [done|apply H]. Qed.

Lemma for_each_ext {A : Type} (l : list A) (f g : A -> M unit) (w : world) :
  (forall x w0, f x w0 = g x w0) -> for_each l f w = for_each l g w.
Proof.
  intros H. revert w. induction l as [|x l IH]; intros w; simpl; [done|].
  unfold bind. rewrite H. destruct (g x w) as [[e|[]] w0]; [done|apply IH].
Qed.

Section ExitStatus.

Variables spawn1 spawn2
  : list string -> list string -> gmap (list string) node -> proc_result.

Hypothesis same_effect :
  forall argv dir fs, proc_fs (spawn1 argv dir fs) = proc_fs (spawn2 argv dir fs).

Lemma subprocess_run_unchecked {B : Type} (argv : list string)
    (dir : option (list string)) (k : M B) (w : world) :
  bind (subprocess_run spawn1 argv dir false) (fun _ => k) w
  = bind (subprocess_run spawn2 argv dir false) (fun _ => k) w.
Proof.
  unfold subprocess_run, bind, get_cwd, get_fs, log, put_fs, raise, ret.
  simpl. specialize (same_effect argv (default (w_cwd w) dir) (w_fs w)).
  destruct (spawn1 _ _ _), (spawn2 _ _ _); simpl in *; try done.
  by injection same_effect as ->.
Qed.

Lemma refresh_unchecked (md mo : list string) (p : BaselineProject)
    (w : world) :
  refresh spawn1 md mo p w = refresh spawn2 md mo p w.
Proof.
  unfold refresh.
  apply bind_ext; intros fs0 w0. apply bind_ext; intros [] w1.
  apply bind_ext; intros [] w2.
  etrans; [apply subprocess_run_unchecked|].
  apply bind_ext; intros c w3. apply bind_ext; intros fs3 w4.
  apply subprocess_run_unchecked.
Qed.

(** C8: two worlds whose child processes do the same to the file system
    and differ only in their exit status give the same run: the same
    projects are refreshed by the same calls and the script ends the same
    way, with the same exit status of its own; and the script never raises
    the exception of a failed child. *)
Theorem child_exit_status_is_ignored (this projects : list string)
    (w : world) :
  main spawn1 this projects w = main spawn2 this projects w
  /\ exit_code (fst (main spawn1 this projects w))
     = exit_code (fst (main spawn2 this projects w))
  /\ (forall code,
        fst (main spawn1 this projects w) <> inl (CalledProcessError code)).
Proof.
  assert (Heq : main spawn1 this projects w = main spawn2 this projects w).
  { unfold main. apply bind_ext; intros found w0.
    apply for_each_ext. intros p w1. apply refresh_unchecked. }
  split; [done|]. split; [by rewrite Heq|].
  intros code. unfold main. unfold bind at 1.
  destruct (find_baseline_projects _ _) as [[e|found] w1] eqn:Hf;
    destruct (find_baseline_projects_inv _ _ _ _ Hf) as [-> He]; simpl.
  - intros [= ->]. by eapply He.
  - destruct (for_each _ _ w) as [r w2] eqn:Hl.
    destruct (refresh_loop_inv _ _ _ _ _ _ _ Hl) as (_ & _ & _ & _ & Hn).
    apply Hn.
Qed.

End ExitStatus.

Import Examples.

(** A witness of [named_projects_are_refreshed_in_order]: one name of a
    project and one of none, children that exit with status 1. *)
Lemma named_projects_witness :
  exists found evs,
    find_baseline_projects (metalava_dir this) (World [] checkout [])
    = (inr found, World [] checkout [])
    /\ w_trace (snd (main (idle 1) this ["turbine"; "nope"]
                       (World [] checkout [])))
       = w_trace (World [] checkout []) ++ evs
    /\ List.filter is_test_run (map ev_argv evs)
       = map (fun p => test_argv (name p))
           (List.filter (fun p => name_in (name p) ["turbine"; "nope"]) found)
    /\ (forall extra,
          (forall n p, n ∈ extra -> p ∈ found -> name p <> n) ->
          main (idle 1) this (["turbine"; "nope"] ++ extra)
            (World [] checkout [])
          = main (idle 1) this ["turbine"; "nope"] (World [] checkout [])).
Proof.
  apply (named_projects_are_refreshed_in_order (idle 1) this
           ["turbine"; "nope"] (World [] checkout [])).
  - discriminate.
  - vm_compute. reflexivity.
Defined.

(** A witness of [child_exit_status_is_ignored]: children that fail and
    children that succeed. *)
Lemma child_exit_status_witness :
  main (idle 1) this [] (World [] checkout [])
  = main (idle 0) this [] (World [] checkout [])
  /\ exit_code (fst (main (idle 1) this [] (World [] checkout [])))
     = exit_code (fst (main (idle 0) this [] (World [] checkout [])))
  /\ (forall code,
        fst (main (idle 1) this [] (World [] checkout []))
        <> inl (CalledProcessError code)).
Proof.
  apply (child_exit_status_is_ignored (idle 1) (idle 0)).
  intros argv dir fs. reflexivity.
Defined.

(** C1 fails on the code: a build file that names the plugin on two lines
    makes its project a candidate twice, so the list has a duplicate. *)
Theorem marker_on_two_lines_gives_two_candidates :
  let turbine :=
    {| name := "turbine";
       baseline_file :=
         ["src"; "tools"; "metalava"; "turbine"; "src"; "test"; "resources";
          "model-test-suite-baseline.txt"] |} in
  let found :=
    fst (find_baseline_projects (metalava_dir this)
           (World [] checkout_two_lines [])) in
  (exists l1 l2, found = inr (l1 ++ turbine :: turbine :: l2))
  /\ (forall l, found = inr l -> ~ NoDup l).
Proof.
  intros turbine found.
  assert (Hf : found
    = inr [ {| name := "psi";
               baseline_file :=
                 ["src"; "tools"; "metalava"; "psi"; "src"; "test";
                  "resources"; "model-test-suite-baseline.txt"] |};
            turbine; turbine; metalava_project (metalava_dir this) ])
    by (vm_compute; reflexivity).
  split.
  - rewrite Hf. by eexists [_], [_].
  - intros l Hl. rewrite Hf in Hl. injection Hl as <-.
    intros Hnd. apply NoDup_cons in Hnd as [_ Hnd].
    apply NoDup_cons in Hnd as [Hnin _]. apply Hnin. by left.
Qed.

End RefreshSpec.

(** ** More on the artifact gatherer *)

Module GatherMore.
Import Posix Gather PathFacts GatherSpec.

(** A copy that raises has written nothing. *)
Lemma shutil_copy_err (src dst : string) (w w' : world) (e : exn) :
  shutil_copy src dst w = (inl e, w') -> w' = w.
Proof.
  unfold shutil_copy, bind, get_cwd, get_fs, put_fs, raise. simpl.
  match goal with |- context [if ?b then _ else _] => destruct b end;
    [by intros [= _ <-]|].
  destruct (resolve _ _ src) as [e'|ps]; [by intros [= _ <-]|].
  destruct (node_at (w_fs w) ps) as [[c|]|]; try (by intros [= _ <-]).
  match goal with |- context [match ?d with inl _ => _ | inr _ => _ end] =>
    destruct d as [e'|pd] end; [by intros [= _ <-]|].
  repeat case_node; intros H; by inversion H.
Qed.

(** A loop of copies into the directory [out], however it ends, writes
    nowhere but in [out]. *)
Lemma copy_loop_outside (ts : list string) (dst : string) (w : world)
    (out p : list string) :
  resolve_path (w_fs w) (w_cwd w) dst = inr out ->
  is_dir (w_fs w) out = true ->
  ~ out `prefix_of` p ->
  w_fs (snd (for_each ts (fun t => shutil_copy t dst) w)) !! p = w_fs w !! p.
Proof.
  revert w. induction ts as [|t ts IH]; intros w Hr Hd Hp; simpl; [done|].
  unfold bind.
  destruct (shutil_copy t dst w) as [[e|[]] w1] eqn:Hc; simpl.
  - by apply shutil_copy_err in Hc as ->.
  - destruct (shutil_copy_ok _ _ _ _ _ Hc Hr Hd)
      as (s & c & _ & _ & _ & _ & Hnd & ->).
    assert (Hdirs : forall q,
              is_dir (<[out ++ [basename t] := File c]> (w_fs w)) q
              = is_dir (w_fs w) q).
    { intros q. apply is_dir_insert_file; [apply app_singleton_ne_nil|done]. }
    rewrite IH; simpl.
    + apply lookup_insert_ne. intros <-. apply Hp. by apply prefix_app_r.
    + eapply resolve_path_mono; [|exact Hr]. intros q. by rewrite Hdirs.
    + by rewrite Hdirs.
    + done.
Qed.

Section Run.

Variable spawn : list string -> list string -> gmap (list string) node
                 -> proc_result.

(** X1: without [ANDROID_BUILD_TOP], or with an empty one, the script
    raises at once: the working directory, the file system and the list of
    children started are what they were. *)
Theorem missing_build_top_fails_at_once (environ : gmap string string)
    (args : Namespace) (w : world) :
  environ !! "ANDROID_BUILD_TOP" = None
  \/ environ !! "ANDROID_BUILD_TOP" = Some "" ->
  main spawn environ args w = (inl NoBuildTop, w).
Proof. intros [H|H]; unfold main; by rewrite H. Qed.

(** X2: a build that exits with a status other than 0 ends the run with
    [CalledProcessError] of that status: the destination directory is not
    created and nothing is copied, the file system is as the build left
    it. *)
Theorem failed_build_is_fatal (environ : gmap string string)
    (args : Namespace) (w : world) (top : string) (root : list string)
    (code : Z) (built : gmap (list string) node) :
  environ !! "ANDROID_BUILD_TOP" = Some top ->
  top <> "" ->
  resolve (w_fs w) (w_cwd w) top = inr root ->
  node_at (w_fs w) root = Some Dir ->
  present (w_fs w) root (directory args) = false ->
  spawn (soong_ui ++ resolve_targets args) root (w_fs w)
  = Exited code built ->
  code <> 0%Z ->
  main spawn environ args w
  = (inl (CalledProcessError code),
     World root built
       (w_trace w ++ [Run (soong_ui ++ resolve_targets args)
                          root (w_fs w)])).
Proof.
  intros Ht Hne Hr Hroot Hex Hsp Hcode. unfold main. rewrite Ht.
  apply String.eqb_neq in Hne. rewrite Hne.
  unfold chdir, path_exists, subprocess_run, bind, get_cwd, get_fs, put_cwd,
    put_fs, log, raise, ret. simpl.
  rewrite Hr, Hroot. simpl. rewrite Hex. simpl in *. rewrite Hsp. simpl.
  apply Z.eqb_neq in Hcode. by rewrite Hcode.
Qed.

(** X3: a run starts at most one child; a run that ends without an
    exception has started exactly one, the build of all the targets,
    before the destination directory was there. *)
Theorem one_build_per_run (environ : gmap string string) (args : Namespace)
    (w : world) :
  length (w_trace (snd (main spawn environ args w))) <= S (length (w_trace w))
  /\ (fst (main spawn environ args w) = inr tt ->
      exists top root,
        environ !! "ANDROID_BUILD_TOP" = Some top
        /\ resolve (w_fs w) (w_cwd w) top = inr root
        /\ present (w_fs w) root (directory args) = false
        /\ w_trace (snd (main spawn environ args w))
           = w_trace w ++ [Run (soong_ui ++ resolve_targets args)
                               root (w_fs w)]).
Proof.
  destruct (main spawn environ args w) as [r w'] eqn:Hm. simpl. split.
  - apply main_trace in Hm as [->|(top & root & _ & _ & _ & ->)]; [lia|].
    rewrite length_app. simpl. lia.
  - intros ->. destruct (main_ok _ _ _ _ _ Hm)
      as (top & root & built & out & Ht & Hroot & _ & Hex & _ & _ & _ & _
          & Hloop).
    exists top, root. split; [done|]. split; [done|]. split; [done|].
    match type of Hloop with for_each ?l ?f ?w0 = _ =>
      pose proof (copy_loop_frame l (directory args) w0) as [_ Hf] end.
    rewrite Hloop in Hf. exact Hf.
Qed.

(** X4: the script is not idempotent: after a run that ended without an
    exception, the same command in the same place fails, and it fails
    before it starts a build. *)
Theorem second_run_fails (environ : gmap string string) (args : Namespace)
    (w w' : world) :
  main spawn environ args w = (inr tt, w') ->
  exists e w'',
    main spawn environ args (World (w_cwd w) (w_fs w') (w_trace w'))
    = (inl e, w'')
    /\ w_trace w'' = w_trace w'.
Proof.
  intros Hm.
  destruct (main_ok _ _ _ _ _ Hm)
    as (top & root & built & out & Ht & Hroot & _ & _ & _ & Hout & Hnone
        & _ & Hloop).
  destruct (destination_in_place _ _ _ _ Hout Hnone) as (Hr1 & Hd1 & _ & _).
  destruct (copy_loop_ok _ _ _ _ _ Hloop Hr1 Hd1) as (Hdirs & _ & _).
  simpl in Hdirs.
  assert (Hpresent : forall root',
            resolve (w_fs w') (w_cwd w) top = inr root' ->
            present (w_fs w') root' (directory args) = true).
  { intros root' Hroot'.
    assert (root' = root) as ->.
    { unfold resolve in Hroot, Hroot'. destruct (String.eqb top ""); [done|].
      eapply walk_det; eassumption. }
    unfold present.
    rewrite (resolve_path_mono (<[out := Dir]> built) (w_fs w') _ out);
      [|intros q; by rewrite Hdirs|done].
    unfold exists_at. rewrite <- Hdirs in Hd1.
    apply is_dir_node_at in Hd1. by rewrite Hd1. }
  destruct (main spawn environ args (World (w_cwd w) (w_fs w') (w_trace w')))
    as [[e|[]] w''] eqn:Hm2.
  - exists e, w''. split; [done|].
    apply main_trace in Hm2 as [Htr|(top' & root' & Ht' & Hr' & Hex' & _)];
      [done|].
    simpl in Hr', Hex'. rewrite Ht in Ht'. injection Ht' as <-.
    by rewrite (Hpresent _ Hr') in Hex'.
  - destruct (main_ok _ _ _ _ _ Hm2)
      as (top' & root' & _ & _ & Ht' & Hr' & _ & Hex' & _).
    simpl in Hr', Hex'. rewrite Ht in Ht'. injection Ht' as <-.
    by rewrite (Hpresent _ Hr') in Hex'.
Qed.

(** X5: the script writes nowhere but in the destination directory: a
    path that the build leaves as it is, and that is not the place the
    destination names after the build or below it, is after the run what
    it was before, however the run ends. *)
Theorem only_the_destination_is_written (environ : gmap string string)
    (args : Namespace) (w : world) (p : list string) :
  (forall argv dir fs code fs',
     spawn argv dir fs = Exited code fs' -> fs' !! p = fs !! p) ->
  (forall top root code built out,
     environ !! "ANDROID_BUILD_TOP" = Some top ->
     resolve (w_fs w) (w_cwd w) top = inr root ->
     spawn (soong_ui ++ resolve_targets args) root (w_fs w)
     = Exited code built ->
     resolve_path built root (directory args) = inr out ->
     ~ out `prefix_of` p) ->
  w_fs (snd (main spawn environ args w)) !! p = w_fs w !! p.
Proof.
  intros Hbuild Hout. unfold main.
  destruct (environ !! "ANDROID_BUILD_TOP") as [top|] eqn:Ht; [|done].
  destruct (String.eqb top ""); [done|].
  unfold bind at 1.
  destruct (chdir top w) as [[e|[]] w1] eqn:Hc.
  { by apply chdir_err in Hc as ->. }
  apply chdir_ok in Hc as (root & Hroot & _ & ->).
  unfold bind at 1. unfold path_exists, bind, get_cwd, get_fs, ret. simpl.
  destruct (present _ _ _); [done|].
  unfold subprocess_run, bind, get_cwd, get_fs, log, put_fs, raise, ret.
  simpl.
  match goal with |- context [spawn ?a ?b ?c] =>
    destruct (spawn a b c) as [code fsb|] eqn:Hsp end; simpl; [|done].
  pose proof (Hbuild _ _ _ _ _ Hsp) as Hkeep.
  destruct (negb (code =? 0)%Z); simpl; [done|].
  match goal with |- context [mkdir ?s ?w0] =>
    destruct (mkdir s w0) as [[e|[]] w2] eqn:Hm end.
  { by apply mkdir_err in Hm as ->. }
  apply mkdir_ok in Hm as (out & Hr & Hnone & _ & ->). simpl in *.
  specialize (Hout top root code fsb out eq_refl Hroot Hsp Hr).
  destruct (destination_in_place _ _ _ _ Hr Hnone) as (Hr1 & Hd1 & _ & _).
  rewrite (copy_loop_outside _ _ _ out); simpl; [|done..].
  rewrite lookup_insert_ne; [done|]. by intros <-.
Qed.

(** X6: the script checks nothing about the targets but that it can copy
    them: a run ends without an exception only if the build exited with
    status 0 and every target names, once the destination directory is
    there, a regular file that the build left; the run leaves that file as
    it is. *)
Theorem success_needs_every_target (environ : gmap string string)
    (args : Namespace) (w w' : world) :
  main spawn environ args w = (inr tt, w') ->
  exists built,
    spawn (soong_ui ++ resolve_targets args) (w_cwd w') (w_fs w)
    = Exited 0 built
    /\ (forall t, t ∈ resolve_targets args ->
          exists s c,
            resolve (w_fs w') (w_cwd w') t = inr s
            /\ built !! s = Some (File c)
            /\ w_fs w' !! s = Some (File c)).
Proof.
  intros Hm.
  destruct (main_ok _ _ _ _ _ Hm)
    as (top & root & built & out & Ht & Hroot & _ & _ & Hsp & Hout & Hnone
        & _ & Hloop).
  destruct (destination_in_place _ _ _ _ Hout Hnone) as (Hr1 & Hd1 & _ & _).
  match type of Hloop with for_each ?l ?f ?w0 = _ =>
    pose proof (copy_loop_frame l (directory args) w0) as [Hcwd _] end.
  rewrite Hloop in Hcwd. simpl in Hcwd. rewrite Hcwd.
  destruct (copy_loop_ok _ _ _ _ _ Hloop Hr1 Hd1) as (Hdirs & Hframe & Hall).
  simpl in Hdirs, Hframe, Hall.
  exists built. split; [done|]. intros t Hin.
  destruct (Hall t Hin) as (_ & _ & s & c & Hs & Hf & Hno).
  exists s, c. split.
  { eapply resolve_mono; [|exact Hs]. intros q. by rewrite Hdirs. }
  assert (Hb : built !! s = Some (File c)).
  { rewrite lookup_insert_ne in Hf; [done|].
    intros <-. by rewrite lookup_insert_eq in Hf. }
  split; [done|]. rewrite Hframe; [done|]. intros t' Ht'. by apply Hno.
Qed.

End Run.

Import Examples.

(** A witness of [missing_build_top_fails_at_once]: an empty
    environment. *)
Lemma missing_build_top_witness :
  main (idle 0) ∅ same_names (at_home top_tree)
  = (inl NoBuildTop, at_home top_tree).
Proof.
  apply (missing_build_top_fails_at_once (idle 0) ∅ same_names
           (at_home top_tree)).
  left. reflexivity.
Defined.

(** A witness of [failed_build_is_fatal]: a build that exits with 2. *)
Lemma failed_build_witness :
  main (idle 2) environ beside_root (at_home top_tree)
  = (inl (CalledProcessError 2),
     World ["top"] top_tree
       [Run (soong_ui ++ ["a/x.jar"; "a/../b/y.jar"]) ["top"] top_tree]).
Proof.
  apply (failed_build_is_fatal (idle 2) environ beside_root
           (at_home top_tree) "/top" ["top"] 2%Z top_tree);
    [reflexivity | discriminate | reflexivity | reflexivity | reflexivity
    | reflexivity | discriminate].
Defined.

(** A witness of [second_run_fails]. *)
Lemma second_run_witness :
  let w' := snd (main (idle 0) environ beside_root (at_home top_tree)) in
  exists e w'',
    main (idle 0) environ beside_root
      (World ["home"] (w_fs w') (w_trace w')) = (inl e, w'')
    /\ w_trace w'' = w_trace w'.
Proof.
  apply (second_run_fails (idle 0) environ beside_root (at_home top_tree)).
  vm_compute. reflexivity.
Defined.

(** A witness of [only_the_destination_is_written]: a source file is
    left as it is. *)
Lemma only_the_destination_witness :
  w_fs (snd (main (idle 0) environ beside_root (at_home top_tree)))
    !! ["top"; "a"; "x.jar"]
  = top_tree !! ["top"; "a"; "x.jar"].
Proof.
  apply (only_the_destination_is_written (idle 0) environ beside_root
           (at_home top_tree) ["top"; "a"; "x.jar"]).
  - intros argv dir fs code fs' [= _ <-]. reflexivity.
  - intros top root code built out Htop Hroot Hsp Hout.
    vm_compute in Htop. injection Htop as <-.
    vm_compute in Hroot. injection Hroot as <-.
    injection Hsp as _ <-.
    vm_compute in Hout. injection Hout as <-.
    intros [k Hk]. discriminate Hk.
Defined.

(** A witness of [success_needs_every_target]. *)
Lemma success_needs_every_target_witness :
  let w' := snd (main (idle 0) environ beside_root (at_home top_tree)) in
  exists built,
    idle 0 (soong_ui ++ resolve_targets beside_root) (w_cwd w') top_tree
    = Exited 0 built
    /\ (forall t, t ∈ resolve_targets beside_root ->
          exists s c,
            resolve (w_fs w') (w_cwd w') t = inr s
            /\ built !! s = Some (File c)
            /\ w_fs w' !! s = Some (File c)).
Proof.
  apply (success_needs_every_target (idle 0) environ beside_root
           (at_home top_tree)).
  vm_compute. reflexivity.
Defined.

End GatherMore.

(** ** More on the baseline refresher *)

Module RefreshMore.
Import Posix Refresh Notions RefreshSpec.

(** *** Discovery *)

Lemma strip_prefix_spec (pre l rel : list string) :
  strip_prefix pre l = Some rel <-> l = pre ++ rel.
Proof.
  revert l. induction pre as [|a pre IH]; intros l; simpl.
  - split; [by intros [= ->]|by intros ->].
  - destruct l as [|b l]; [by split|].
    destruct (String.eqb a b) eqn:Hab.
    + apply String.eqb_eq in Hab as ->. rewrite IH.
      split; [by intros ->|by intros [= ->]].
    + apply String.eqb_neq in Hab. split; [done|]. by intros [= -> _].
Qed.

Lemma elem_of_glob_build_files (fs : gmap (list string) node)
    (dir p : list string) :
  p ∈ glob_build_files fs dir
  <-> is_dir fs dir = true
      /\ exists d, p = dir ++ [d; "build.gradle.kts"]
                   /\ is_dir fs (dir ++ [d]) = true
                   /\ is_Some (fs !! p).
Proof.
  unfold glob_build_files. destruct (is_dir fs dir).
  - rewrite list_elem_of_In, filter_In, <- list_elem_of_In, list_elem_of_fmap.
    split.
    + intros [([q x] & -> & Hin) [Hb Hd]%andb_true_iff].
      apply elem_of_map_to_list in Hin. simpl in *.
      split; [done|]. unfold is_build_file in Hb.
      destruct (strip_prefix dir q) as [[|d [|f [|]]]|] eqn:Hs; try done.
      apply String.eqb_eq in Hb as ->. apply strip_prefix_spec in Hs as ->.
      exists d. split; [done|]. split; [|by exists x].
      unfold parent in Hd.
      replace (dir ++ [d; "build.gradle.kts"])
        with ((dir ++ [d]) ++ ["build.gradle.kts"]) in Hd
        by (by rewrite <- app_assoc).
      by rewrite removelast_last in Hd.
    + intros (_ & d & -> & Hd & [x Hx]). split.
      * exists (dir ++ [d; "build.gradle.kts"], x). split; [done|].
        by apply elem_of_map_to_list.
      * apply andb_true_iff. split.
        -- unfold is_build_file.
           by rewrite (proj2 (strip_prefix_spec dir _ [d; "build.gradle.kts"])
                         eq_refl).
        -- unfold parent.
           replace (dir ++ [d; "build.gradle.kts"])
             with ((dir ++ [d]) ++ ["build.gradle.kts"])
             by (by rewrite <- app_assoc).
           by rewrite removelast_last.
  - split; [by intros ?%elem_of_nil|]. by intros [? _].
Qed.

Lemma NoDup_glob_build_files (fs : gmap (list string) node)
    (dir : list string) :
  NoDup (glob_build_files fs dir).
Proof.
  unfold glob_build_files. destruct (is_dir fs dir); [|constructor].
  apply NoDup_ListNoDup, List.NoDup_filter, NoDup_ListNoDup,
    NoDup_fst_map_to_list.
Qed.

(** The inner loop adds the candidate of the build file once for every
    line with the marker. *)
Lemma scan_lines_spec (f : list string) (lines : list string)
    (acc : list BaselineProject) :
  scan_lines f lines acc
  = acc ++ map (fun _ => candidate f) (List.filter has_marker lines).
Proof.
  revert acc. induction lines as [|line lines IH]; intros acc; simpl.
  - by rewrite app_nil_r.
  - unfold has_marker at 1.
    destruct (Str.contains marker line); simpl; rewrite IH; [|done].
    by rewrite <- app_assoc.
Qed.

Lemma scan_build_files_ok (files : list (list string))
    (acc found : list BaselineProject) (w w' : world) :
  scan_build_files files acc w = (inr found, w') ->
  Forall (fun f => exists c, node_at (w_fs w) f = Some (File c)) files
  /\ found = acc ++ flat_map (candidates_of (w_fs w)) files.
Proof.
  revert acc. induction files as [|f files IH]; intros acc; simpl.
  - intros [= <- <-]. split; [constructor|by rewrite app_nil_r].
  - unfold read_lines, bind, get_fs, raise, ret. simpl.
    destruct (node_at (w_fs w) f) as [[c|]|] eqn:Hf; [|done|done].
    intros H. destruct (IH _ H) as [Hall ->]. split.
    + constructor; [by exists c|done].
    + unfold candidates_of at 2, lines_of. rewrite Hf.
      by rewrite scan_lines_spec, <- app_assoc.
Qed.

Lemma candidate_of_build_file (dir : list string) (d : string) :
  candidate (dir ++ [d; "build.gradle.kts"])
  = {| name := d;
       baseline_file :=
         dir ++ [d; "src"; "test"; "resources";
                 "model-test-suite-baseline.txt"] |}.
Proof.
  unfold candidate, resource_path, parent, Posix.name.
  replace (dir ++ [d; "build.gradle.kts"])
    with ((dir ++ [d]) ++ ["build.gradle.kts"]) by (by rewrite <- app_assoc).
  rewrite removelast_last, last_last. by rewrite <- app_assoc.
Qed.

Lemma find_baseline_projects_ok (dir : list string)
    (found : list BaselineProject) (w w' : world) :
  find_baseline_projects dir w = (inr found, w') ->
  Forall (fun f => exists c, node_at (w_fs w) f = Some (File c))
    (glob_build_files (w_fs w) dir)
  /\ found = flat_map (candidates_of (w_fs w)) (glob_build_files (w_fs w) dir)
             ++ [metalava_project dir].
Proof.
  unfold find_baseline_projects, bind, get_fs, ret. simpl.
  destruct (scan_build_files _ [] w) as [[e|ps] w1] eqn:Hs; [done|].
  intros [= <- <-]. by destruct (scan_build_files_ok _ _ _ _ _ Hs) as [? ->].
Qed.

(** X7: discovery only reads; the fixed project [metalava] is always the
    last of the list, and the whole list when the directory of the
    checkout is no directory. *)
Theorem fixed_project_is_always_last (dir : list string) (w : world) :
  snd (find_baseline_projects dir w) = w
  /\ (forall found, fst (find_baseline_projects dir w) = inr found ->
        exists l, found = l ++ [metalava_project dir])
  /\ (is_dir (w_fs w) dir = false ->
        fst (find_baseline_projects dir w) = inr [metalava_project dir]).
Proof.
  destruct (find_baseline_projects dir w) as [r w'] eqn:Hf. simpl.
  split; [by destruct (find_baseline_projects_inv _ _ _ _ Hf)|]. split.
  - intros found ->. destruct (find_baseline_projects_ok _ _ _ _ Hf) as [_ ->].
    by eexists.
  - intros Hd. revert Hf.
    unfold find_baseline_projects, glob_build_files, bind, get_fs, ret.
    simpl. rewrite Hd. simpl. by intros [= <- _].
Qed.

(** X8: when discovery succeeds, the candidates before the fixed project
    are exactly these: for every directory [d] directly in the checkout
    whose [build.gradle.kts] is a file, and for every line of that file
    that contains the marker, the project named [d] with the baseline file
    [d/src/test/resources/model-test-suite-baseline.txt]. *)
Theorem candidates_are_the_marked_projects (dir : list string)
    (found : list BaselineProject) (w w' : world) :
  find_baseline_projects dir w = (inr found, w') ->
  exists l,
    found = l ++ [metalava_project dir]
    /\ forall bp, bp ∈ l <->
         exists d lines line,
           is_dir (w_fs w) dir = true
           /\ is_dir (w_fs w) (dir ++ [d]) = true
           /\ w_fs w !! (dir ++ [d; "build.gradle.kts"]) = Some (File lines)
           /\ line ∈ lines
           /\ Str.contains marker line = true
           /\ bp = {| name := d;
                      baseline_file :=
                        dir ++ [d; "src"; "test"; "resources";
                                "model-test-suite-baseline.txt"] |}.
Proof.
  intros Hf. destruct (find_baseline_projects_ok _ _ _ _ Hf) as [_ ->].
  eexists. split; [done|]. intros bp.
  rewrite list_elem_of_In, in_flat_map. split.
  - intros (f & Hin & Hbp). apply list_elem_of_In in Hin.
    apply elem_of_glob_build_files in Hin as (Hdir & d & -> & Hd & _).
    unfold candidates_of in Hbp. apply in_map_iff in Hbp as (line & <- & Hl).
    apply filter_In in Hl as [Hl Hm]. unfold lines_of in Hl.
    destruct (node_at (w_fs w) _) as [[c|]|] eqn:Hn; try done.
    exists d, c, line. split; [done|]. split; [done|].
    split; [by destruct dir|]. split; [by apply list_elem_of_In|].
    split; [done|]. by rewrite candidate_of_build_file.
  - intros (d & lines & line & Hdir & Hd & Hfile & Hl & Hm & ->).
    exists (dir ++ [d; "build.gradle.kts"]). split.
    + apply list_elem_of_In, elem_of_glob_build_files. split; [done|].
      exists d. split; [done|]. split; [done|]. by eexists.
    + unfold candidates_of. apply in_map_iff. exists line.
      split; [by rewrite candidate_of_build_file|].
      apply filter_In. split; [|done].
      unfold lines_of. replace (node_at (w_fs w) _) with (Some (File lines)).
      * by apply list_elem_of_In.
      * symmetry. by destruct dir.
Qed.

Lemma candidates_of_cases (fs : gmap (list string) node) (f : list string) :
  length (List.filter has_marker (lines_of fs f)) <= 1 ->
  candidates_of fs f = [] \/ candidates_of fs f = [candidate f].
Proof.
  unfold candidates_of.
  destruct (List.filter has_marker (lines_of fs f)) as [|a [|b l]]; simpl;
    [by left|by right|lia].
Qed.

Lemma elem_of_candidates (fs : gmap (list string) node)
    (files : list (list string)) (bp : BaselineProject) :
  bp ∈ flat_map (candidates_of fs) files ->
  exists f, f ∈ files /\ bp = candidate f.
Proof.
  rewrite list_elem_of_In, in_flat_map. intros (f & Hf & Hbp).
  exists f. split; [by apply list_elem_of_In|].
  unfold candidates_of in Hbp. by apply in_map_iff in Hbp as (? & <- & _).
Qed.

Lemma NoDup_candidate_names (fs : gmap (list string) node)
    (dir : list string) (files : list (list string)) :
  NoDup files ->
  Forall (fun f => exists d, f = dir ++ [d; "build.gradle.kts"]) files ->
  Forall (fun f => length (List.filter has_marker (lines_of fs f)) <= 1)
    files ->
  NoDup (map name (flat_map (candidates_of fs) files)).
Proof.
  induction files as [|f files IH]; simpl; [constructor|].
  intros [Hnin Hnd]%NoDup_cons [[d ->] Hform]%Forall_cons
    [Hone Hones]%Forall_cons.
  rewrite map_app.
  destruct (candidates_of_cases _ _ Hone) as [->| ->]; simpl;
    [by apply IH|].
  constructor; [|by apply IH].
  intros Hin. apply list_elem_of_fmap in Hin as (bp & Hname & Hbp).
  apply elem_of_candidates in Hbp as (f' & Hf' & ->).
  rewrite Forall_forall in Hform.
  destruct (Hform f' Hf') as [d' ->].
  rewrite candidate_of_build_file in Hname. simpl in Hname. subst d'.
  pose proof (f_equal name (candidate_of_build_file dir d)) as Hd.
  simpl in Hd. by rewrite Hd in Hf'.
Qed.

(** X9: when no build file has the marker on more than one line,
    discovery gives every project once: the list has no duplicate, and no
    two candidates before the fixed project have the same name. *)
Theorem one_marker_line_one_candidate (dir : list string)
    (found : list BaselineProject) (w w' : world) :
  (forall f lines,
     f ∈ glob_build_files (w_fs w) dir ->
     w_fs w !! f = Some (File lines) ->
     length (List.filter (Str.contains marker) lines) <= 1) ->
  find_baseline_projects dir w = (inr found, w') ->
  exists l,
    found = l ++ [metalava_project dir]
    /\ NoDup found
    /\ NoDup (map name l).
Proof.
  intros Hone Hf.
  destruct (find_baseline_projects_ok _ _ _ _ Hf) as [Hfiles ->].
  eexists. split; [done|].
  assert (Hnames : NoDup (map name
            (flat_map (candidates_of (w_fs w))
               (glob_build_files (w_fs w) dir)))).
  { apply (NoDup_candidate_names _ dir).
    - apply NoDup_glob_build_files.
    - apply Forall_forall. intros f Hin.
      apply elem_of_glob_build_files in Hin as (_ & d & -> & _). by exists d.
    - rewrite Forall_forall in Hfiles. apply Forall_forall. intros f Hin.
      destruct (Hfiles f Hin) as [c Hc]. unfold lines_of. rewrite Hc.
      apply (Hone f c Hin).
      apply elem_of_glob_build_files in Hin as (_ & d & -> & _).
      by destruct dir. }
  split; [|done].
  apply NoDup_app. split; [by eapply NoDup_fmap_1|].
  split; [|apply NoDup_singleton].
  intros bp Hbp ->%list_elem_of_singleton.
  apply elem_of_candidates in Hbp as (f & Hin & Heq).
  apply elem_of_glob_build_files in Hin as (_ & d & -> & _).
  rewrite candidate_of_build_file in Heq.
  apply (f_equal (fun p => List.rev (baseline_file p))) in Heq.
  unfold metalava_project, resource_path in Heq. simpl in Heq.
  rewrite !rev_app_distr in Heq. simpl in Heq. discriminate Heq.
Qed.

Lemma scan_build_files_dir (files : list (list string))
    (acc : list BaselineProject) (w : world) :
  Forall (fun f => f <> [] /\ is_Some (w_fs w !! f)) files ->
  Exists (fun f => w_fs w !! f = Some Dir) files ->
  scan_build_files files acc w = (inl IsADirectoryError, w).
Proof.
  revert acc. induction files as [|f files IH]; intros acc Hall Hex.
  - by apply Exists_nil in Hex.
  - apply Forall_cons in Hall as [[Hne [x Hx]] Hall]. simpl.
    unfold read_lines, bind, get_fs, raise, ret. simpl.
    assert (Hn : node_at (w_fs w) f = Some x) by (by destruct f).
    rewrite Hn. destruct x as [c|]; [|done].
    apply IH; [done|].
    apply Exists_cons in Hex as [Hex|Hex]; [congruence|done].
Qed.

(** *** The run *)

Lemma name_in_spec (n : string) (names : list string) :
  name_in n names = true <-> n ∈ names.
Proof.
  unfold name_in. rewrite existsb_exists, list_elem_of_In. split.
  - by intros (m & Hm & ->%String.eqb_eq).
  - intros Hn. exists n. split; [done|apply String.eqb_refl].
Qed.

Lemma filter_none {A : Type} (f : A -> bool) (l : list A) :
  (forall x, x ∈ l -> f x = false) -> List.filter f l = [].
Proof.
  induction l as [|x l IH]; intros H; simpl; [done|].
  rewrite (H x) by (by left). apply IH. intros y Hy. apply H. by right.
Qed.

Section Run.

Variable spawn : list string -> list string -> gmap (list string) node
                 -> proc_result.

(** X10: a directory named [build.gradle.kts] in a project directory
    stops the script before it has deleted anything or started any child:
    it raises [IsADirectoryError] and the world is what it was. *)
Theorem build_file_that_is_a_directory (this projects : list string)
    (w : world) (d : string) :
  is_dir (w_fs w) (metalava_dir this) = true ->
  is_dir (w_fs w) (metalava_dir this ++ [d]) = true ->
  w_fs w !! (metalava_dir this ++ [d; "build.gradle.kts"]) = Some Dir ->
  main spawn this projects w = (inl IsADirectoryError, w).
Proof.
  intros Hdir Hd Hf. unfold main, find_baseline_projects, bind, get_fs, ret.
  simpl. rewrite scan_build_files_dir; [done| |].
  - apply Forall_forall. intros f Hin.
    apply elem_of_glob_build_files in Hin as (_ & d' & -> & _ & Hs).
    split; [|done]. by destruct (metalava_dir this).
  - apply Exists_exists. exists (metalava_dir this ++ [d; "build.gradle.kts"]).
    split; [|done]. apply elem_of_glob_build_files. split; [done|].
    exists d. split; [done|]. split; [done|]. by eexists.
Qed.

(** X11: without names on the command line every discovered project is
    refreshed: a run that ends without an exception has started two
    children for each, and its test runs are those of the discovered
    projects in the order of discovery. *)
Theorem all_projects_without_names (this : list string) (w w' : world) :
  main spawn this [] w = (inr tt, w') ->
  exists found evs,
    find_baseline_projects (metalava_dir this) w = (inr found, w)
    /\ w_trace w' = w_trace w ++ evs
    /\ length evs = 2 * length found
    /\ List.filter is_test_run (map ev_argv evs)
       = map (fun p => test_argv (name p)) found.
Proof.
  unfold main. unfold bind at 1.
  destruct (find_baseline_projects _ _) as [[e|found] w1] eqn:Hf;
    destruct (find_baseline_projects_inv _ _ _ _ Hf) as [-> _]; [done|].
  simpl. intros Hl.
  destruct (refresh_loop_inv _ _ _ _ _ _ _ Hl) as (evs & Ht & _ & Hok & _).
  destruct (Hok eq_refl) as [Hfilter Hlen].
  by exists found, evs.
Qed.

(** X12: the names on the command line count as a set: two non-empty
    lists with the same members give the same run, whatever their order
    and however often a name is repeated. *)
Theorem names_count_as_a_set (this l1 l2 : list string) (w : world) :
  l1 <> [] ->
  (forall n, n ∈ l1 <-> n ∈ l2) ->
  main spawn this l1 w = main spawn this l2 w.
Proof.
  intros Hne Hsame.
  assert (Hne2 : l2 <> []).
  { destruct l1 as [|a l1]; [done|]. intros ->.
    by apply (elem_of_nil a), Hsame; left. }
  unfold main. apply bind_ext. intros found w0. f_equal.
  destruct l1 as [|a1 l1]; [done|]. destruct l2 as [|a2 l2]; [done|].
  unfold select. apply filter_ext. intros p.
  apply eq_true_iff_eq. rewrite !name_in_spec. apply Hsame.
Qed.

(** X13: names that are no project's name give a run that does nothing
    and reports nothing: when no discovered project has one of the names,
    the script ends without an exception and leaves the world as it
    was. *)
Theorem unknown_names_do_nothing (this projects : list string)
    (found : list BaselineProject) (w w0 : world) :
  projects <> [] ->
  find_baseline_projects (metalava_dir this) w = (inr found, w0) ->
  (forall p, p ∈ found -> name p ∉ projects) ->
  main spawn this projects w = (inr tt, w).
Proof.
  intros Hne Hf Hnone. unfold main. unfold bind at 1. rewrite Hf.
  destruct (find_baseline_projects_inv _ _ _ _ Hf) as [-> _].
  destruct projects as [|a l]; [done|]. unfold select.
  rewrite filter_none; [done|].
  intros p Hp. apply not_true_is_false. rewrite name_in_spec.
  by apply Hnone.
Qed.

Lemma unlink_missing_ok (p : list string) (w w' : world) :
  unlink true p w = (inr tt, w') -> w_fs w' !! p = None.
Proof.
  unfold unlink, bind, get_fs, put_fs, raise, ret. simpl.
  destruct (node_at (w_fs w) p) as [[c|]|] eqn:Hn; [| done |].
  - intros [= <-]. apply lookup_delete_eq.
  - intros [= <-]. by destruct p.
Qed.

(** X14: one turn of the loop that ends without an exception has started
    two children in the directory of the checkout, in this order: the test
    run, on a file system with no report below the results directory and
    no baseline file; then the baseline generator, whose arguments name
    the reports found after the test run and the baseline file, on the
    file system the test run left. *)
Theorem refresh_runs_tests_then_baseline (md mo : list string)
    (p : BaselineProject) (w w' : world) :
  refresh spawn md mo p w = (inr tt, w') ->
  let reports_dir := test_reports_dir mo (name p) in
  exists before tested code1 code2,
    glob_test_reports before reports_dir = []
    /\ before !! baseline_file p = None
    /\ spawn (test_argv (name p)) md before = Exited code1 tested
    /\ spawn (baseline_argv (glob_test_reports tested reports_dir)
                (baseline_file p)) md tested
       = Exited code2 (w_fs w')
    /\ w_trace w'
       = w_trace w
         ++ [ Run (test_argv (name p)) md before;
              Run (baseline_argv (glob_test_reports tested reports_dir)
                     (baseline_file p)) md tested ].
Proof.
  unfold refresh. unfold bind at 1. unfold get_fs at 1.
  unfold bind at 1.
  destruct (for_each _ (unlink false) w) as [[e|[]] w1] eqn:Hl; [done|].
  destruct (unlink_loop_inv _ _ _ _ Hl) as (_ & Ht1 & Hs1 & Hd1 & _).
  specialize (Hd1 eq_refl).
  unfold bind at 1.
  destruct (unlink true (baseline_file p) w1) as [[e|[]] w2] eqn:Hu; [done|].
  destruct (unlink_inv _ _ _ _ _ Hu) as (_ & Ht2 & Hs2 & _ & _).
  pose proof (unlink_missing_ok _ _ _ Hu) as Hb.
  unfold subprocess_run, bind, get_cwd, get_fs, log, put_fs, raise, ret.
  simpl.
  destruct (spawn (test_argv (name p)) md (w_fs w2)) as [c1 fs2|] eqn:Hsp1;
    simpl; [|done].
  match goal with |- context [spawn ?a md fs2] =>
    destruct (spawn a md fs2) as [c2 fs3|] eqn:Hsp2 end; simpl; [|done].
  intros [= <-]. simpl. exists (w_fs w2), fs2, c1, c2.
  split.
  { apply (glob_test_reports_deleted (w_fs w)); [by etrans|].
    intros q Hq. specialize (Hd1 q Hq).
    destruct (w_fs w2 !! q) eqn:Hq2; [|done].
    by rewrite (lookup_weaken _ _ _ _ Hq2 Hs2) in Hd1. }
  split; [done|]. split; [done|]. split; [done|].
  by rewrite Ht2, Ht1, <- app_assoc.
Qed.

(** *** What the script leaves alone *)

Lemma keeps_bind {A B : Type} (p : list string) (m : M A) (k : A -> M B) :
  keeps p m -> (forall a, keeps p (k a)) -> keeps p (bind m k).
Proof.
  intros Hm Hk w. unfold bind. specialize (Hm w).
  destruct (m w) as [[e|a] w1]; simpl in *; [done|].
  by rewrite Hk.
Qed.

Lemma keeps_for_each {A : Type} (p : list string) (l : list A)
    (body : A -> M unit) :
  (forall x, x ∈ l -> keeps p (body x)) -> keeps p (for_each l body).
Proof.
  induction l as [|x l IH]; intros H; simpl; [done|].
  apply keeps_bind; [apply H; by left|].
  intros _. apply IH. intros y Hy. apply H. by right.
Qed.

Lemma keeps_unlink (p q : list string) (missing_ok : bool) :
  p <> q -> keeps p (unlink missing_ok q).
Proof.
  intros Hne w. unfold unlink, bind, get_fs, put_fs, raise, ret. simpl.
  destruct (node_at (w_fs w) q) as [[c|]|]; simpl; [|done|by destruct missing_ok].
  by apply lookup_delete_ne.
Qed.

Lemma keeps_subprocess_run (p : list string) (argv : list string)
    (dir : option (list string)) (check : bool) :
  (forall argv dir fs code fs',
     spawn argv dir fs = Exited code fs' -> fs' !! p = fs !! p) ->
  keeps p (subprocess_run spawn argv dir check).
Proof.
  intros Hsp w.
  unfold subprocess_run, bind, get_cwd, get_fs, log, put_fs, raise, ret.
  simpl.
  destruct (spawn argv _ (w_fs w)) as [code fs'|] eqn:H; simpl; [|done].
  apply Hsp in H. by destruct (check && _).
Qed.

Lemma walk_rec_last (fs : gmap (list string) node) (ok : string -> bool)
    (rel cur : list string) :
  walk_rec fs ok cur rel = true -> ok (List.last rel "") = true.
Proof.
  revert cur. induction rel as [|d rest IH]; intros cur; simpl; [done|].
  destruct rest as [|d' rest]; [done|].
  intros [_ Hw]%andb_true_iff. by apply IH in Hw.
Qed.

Lemma last_app_cons (l1 l2 : list string) (x d : string) :
  List.last (l1 ++ x :: l2) d = List.last (x :: l2) d.
Proof.
  induction l1 as [|a l1 IH]; [done|].
  change ((a :: l1) ++ x :: l2) with (a :: (l1 ++ x :: l2)).
  destruct (l1 ++ x :: l2) eqn:H; [by destruct l1|].
  simpl in *. exact IH.
Qed.

(** What the glob yields has a name of the form [TEST-*.xml]. *)
Lemma glob_test_reports_names (fs : gmap (list string) node)
    (dir q : list string) :
  q ∈ glob_test_reports fs dir -> is_test_report (Posix.name q) = true.
Proof.
  intros (_ & _ & Hb)%elem_of_glob_test_reports. unfold below in Hb.
  destruct (strip_prefix dir q) as [rel|] eqn:Hs; [|done].
  apply strip_prefix_spec in Hs as ->.
  pose proof (walk_rec_last _ _ _ _ Hb) as Hl.
  destruct rel as [|x rel]; [done|].
  unfold Posix.name. by rewrite last_app_cons.
Qed.

Lemma keeps_refresh (p md mo : list string) (bp : BaselineProject) :
  (forall argv dir fs code fs',
     spawn argv dir fs = Exited code fs' -> fs' !! p = fs !! p) ->
  is_test_report (Posix.name p) = false ->
  p <> baseline_file bp ->
  keeps p (refresh spawn md mo bp).
Proof.
  intros Hsp Hname Hbase. unfold refresh.
  apply keeps_bind; [done|]. intros fs.
  apply keeps_bind.
  { apply keeps_for_each. intros q Hq. apply keeps_unlink. intros ->.
    apply glob_test_reports_names in Hq. congruence. }
  intros _. apply keeps_bind; [by apply keeps_unlink|].
  intros _. apply keeps_bind; [by apply keeps_subprocess_run|].
  intros _. apply keeps_bind; [done|]. intros fs'.
  apply keeps_bind; [by apply keeps_subprocess_run|]. done.
Qed.

(** X15: the script deletes nothing but test reports and baseline files:
    a path whose name is neither of the form [TEST-*.xml] nor one of the
    two baseline file names, and that the children leave as it is, is
    after the run what it was before, however the run ends. *)
Theorem only_reports_and_baselines_are_deleted (this projects : list string)
    (w : world) (p : list string) :
  (forall argv dir fs code fs',
     spawn argv dir fs = Exited code fs' -> fs' !! p = fs !! p) ->
  is_test_report (Posix.name p) = false ->
  Posix.name p <> "model-test-suite-baseline.txt" ->
  Posix.name p <> "source-model-provider-baseline.txt" ->
  w_fs (snd (main spawn this projects w)) !! p = w_fs w !! p.
Proof.
  intros Hsp Hname Hb1 Hb2. unfold main. unfold bind.
  destruct (find_baseline_projects _ _) as [[e|found] w1] eqn:Hf;
    destruct (find_baseline_projects_inv _ _ _ _ Hf) as [-> _]; [done|].
  apply keeps_for_each. intros bp Hbp. apply keeps_refresh; [done..|].
  assert (Hin : bp ∈ found).
  { destruct projects; [done|]. unfold select in Hbp.
    apply list_elem_of_In, filter_In in Hbp as [Hbp _].
    by apply list_elem_of_In. }
  destruct (find_baseline_projects_ok _ _ _ _ Hf) as [_ ->].
  intros ->. apply elem_of_app in Hin as [Hin|Hin].
  - apply elem_of_candidates in Hin as (f & _ & ->).
    apply Hb1. unfold candidate, resource_path, Posix.name. simpl.
    by rewrite last_app_cons.
  - apply list_elem_of_singleton in Hin as ->.
    apply Hb2. unfold metalava_project, resource_path, Posix.name. simpl.
    by rewrite last_app_cons.
Qed.

End Run.

Import Examples.

(** A witness of [candidates_are_the_marked_projects]. *)
Lemma candidates_witness :
  exists l,
    [ candidate ["src"; "tools"; "metalava"; "psi"; "build.gradle.kts"];
      candidate ["src"; "tools"; "metalava"; "turbine"; "build.gradle.kts"];
      metalava_project (metalava_dir this) ]
    = l ++ [metalava_project (metalava_dir this)]
    /\ forall bp, bp ∈ l <->
         exists d lines line,
           is_dir checkout (metalava_dir this) = true
           /\ is_dir checkout (metalava_dir this ++ [d]) = true
           /\ checkout !! (metalava_dir this ++ [d; "build.gradle.kts"])
              = Some (File lines)
           /\ line ∈ lines
           /\ Str.contains marker line = true
           /\ bp = {| name := d;
                      baseline_file :=
                        metalava_dir this
                        ++ [d; "src"; "test"; "resources";
                            "model-test-suite-baseline.txt"] |}.
Proof.
  apply (candidates_are_the_marked_projects (metalava_dir this) _
           (World [] checkout []) (World [] checkout [])).
  vm_compute. reflexivity.
Defined.

(** A witness of [one_marker_line_one_candidate]: the notes have the
    marker on two lines, no build file has. *)
Lemma one_marker_line_witness :
  exists l,
    [ candidate ["src"; "tools"; "metalava"; "psi"; "build.gradle.kts"];
      candidate ["src"; "tools"; "metalava"; "turbine"; "build.gradle.kts"];
      metalava_project (metalava_dir this) ]
    = l ++ [metalava_project (metalava_dir this)]
    /\ NoDup
         [ candidate ["src"; "tools"; "metalava"; "psi"; "build.gradle.kts"];
           candidate
             ["src"; "tools"; "metalava"; "turbine"; "build.gradle.kts"];
           metalava_project (metalava_dir this) ]
    /\ NoDup (map name l).
Proof.
  apply (one_marker_line_one_candidate (metalava_dir this) _
           (World [] checkout_notes []) (World [] checkout_notes [])).
  - intros f lines Hin Hf. simpl in Hin, Hf.
    assert (Hglob : glob_build_files checkout_notes (metalava_dir this)
              = [ ["src"; "tools"; "metalava"; "psi"; "build.gradle.kts"];
                  ["src"; "tools"; "metalava"; "cli"; "build.gradle.kts"];
                  ["src"; "tools"; "metalava"; "turbine";
                   "build.gradle.kts"] ])
      by (vm_compute; reflexivity).
    rewrite Hglob in Hin.
    rewrite !elem_of_cons, elem_of_nil in Hin.
    destruct Hin as [->|[->|[->|[]]]]; vm_compute in Hf;
      injection Hf as <-; vm_compute; lia.
  - vm_compute. reflexivity.
Defined.

(** A witness of [build_file_that_is_a_directory]. *)
Lemma build_file_directory_witness :
  main (idle 0) this []
    (World []
       (<[ ["src"; "tools"; "metalava"; "cli"; "build.gradle.kts"] := Dir ]>
          checkout) [])
  = (inl IsADirectoryError,
     World []
       (<[ ["src"; "tools"; "metalava"; "cli"; "build.gradle.kts"] := Dir ]>
          checkout) []).
Proof.
  apply (build_file_that_is_a_directory (idle 0) this [] (World [] _ []) "cli");
    vm_compute; reflexivity.
Defined.

(** A witness of [all_projects_without_names]: the children exit with
    status 1 and still every project is refreshed. *)
Lemma all_projects_witness :
  exists found evs,
    find_baseline_projects (metalava_dir this) (World [] checkout [])
    = (inr found, World [] checkout [])
    /\ w_trace (snd (main (idle 1) this [] (World [] checkout [])))
       = w_trace (World [] checkout []) ++ evs
    /\ length evs = 2 * length found
    /\ List.filter is_test_run (map ev_argv evs)
       = map (fun p => test_argv (name p)) found.
Proof.
  apply (all_projects_without_names (idle 1) this (World [] checkout [])).
  vm_compute. reflexivity.
Defined.

(** A witness of [names_count_as_a_set]. *)
Lemma names_as_a_set_witness :
  main (idle 0) this ["psi"; "turbine"; "psi"] (World [] checkout [])
  = main (idle 0) this ["turbine"; "psi"] (World [] checkout []).
Proof.
  apply (names_count_as_a_set (idle 0) this ["psi"; "turbine"; "psi"]
           ["turbine"; "psi"] (World [] checkout [])).
  - discriminate.
  - intros n. rewrite !elem_of_cons, elem_of_nil. tauto.
Defined.

(** A witness of [unknown_names_do_nothing]: a misspelt name. *)
Lemma unknown_names_witness :
  main (idle 0) this ["turbin"] (World [] checkout [])
  = (inr tt, World [] checkout []).
Proof.
  apply (unknown_names_do_nothing (idle 0) this ["turbin"]
           [ candidate ["src"; "tools"; "metalava"; "psi"; "build.gradle.kts"];
             candidate
               ["src"; "tools"; "metalava"; "turbine"; "build.gradle.kts"];
             metalava_project (metalava_dir this) ]
           (World [] checkout []) (World [] checkout [])).
  - discriminate.
  - vm_compute. reflexivity.
  - intros p Hp Hin. apply list_elem_of_singleton in Hin.
    rewrite !elem_of_cons, elem_of_nil in Hp.
    destruct Hp as [->|[->|[->|[]]]]; vm_compute in Hin; discriminate Hin.
Defined.

(** A witness of [refresh_runs_tests_then_baseline]: the project [psi],
    which has a report of an earlier run. *)
Lemma refresh_witness :
  let psi :=
    candidate ["src"; "tools"; "metalava"; "psi"; "build.gradle.kts"] in
  let w' :=
    snd (refresh (idle 1) (metalava_dir this) (metalava_out_dir this) psi
           (World [] checkout [])) in
  let reports_dir := test_reports_dir (metalava_out_dir this) (name psi) in
  exists before tested code1 code2,
    glob_test_reports before reports_dir = []
    /\ before !! baseline_file psi = None
    /\ idle 1 (test_argv (name psi)) (metalava_dir this) before
       = Exited code1 tested
    /\ idle 1 (baseline_argv (glob_test_reports tested reports_dir)
                 (baseline_file psi)) (metalava_dir this) tested
       = Exited code2 (w_fs w')
    /\ w_trace w'
       = w_trace (World [] checkout [])
         ++ [ Run (test_argv (name psi)) (metalava_dir this) before;
              Run (baseline_argv (glob_test_reports tested reports_dir)
                     (baseline_file psi)) (metalava_dir this) tested ].
Proof.
  apply (refresh_runs_tests_then_baseline (idle 1) (metalava_dir this)
           (metalava_out_dir this)
           (candidate ["src"; "tools"; "metalava"; "psi"; "build.gradle.kts"])
           (World [] checkout [])).
  vm_compute. reflexivity.
Defined.

(** A witness of [only_reports_and_baselines_are_deleted]: a build file
    is still there after the run. *)
Lemma only_reports_witness :
  w_fs (snd (main (idle 0) this [] (World [] checkout [])))
    !! ["src"; "tools"; "metalava"; "psi"; "build.gradle.kts"]
  = checkout !! ["src"; "tools"; "metalava"; "psi"; "build.gradle.kts"].
Proof.
  apply (only_reports_and_baselines_are_deleted (idle 0) this []
           (World [] checkout [])
           ["src"; "tools"; "metalava"; "psi"; "build.gradle.kts"]).
  - intros argv dir fs code fs' [= _ <-]. reflexivity.
  - reflexivity.
  - discriminate.
  - discriminate.
Defined.

End RefreshMore.
